(** * Model / dataset lifecycle of the ML training service

    A shallow embedding of the service layer of the repository:

    - [app/ml/base.py], [app/ml/random_forest.py],
      [app/ml/logistic_regression.py], [app/ml/__init__.py]:
      the capability units and their registry;
    - [app/services/clearml_service.py]: the experiment-tracking side-channel;
    - [app/services/model_service.py]: the lifecycle orchestrator;
    - [app/services/dataset_service.py], [app/services/dvc_service.py]: the
      dataset repository and its versioning side-channel;
    - [app/api/routes/models.py], [app/grpc_service/server.py]: the handlers
      of the two transports for training, retraining, prediction and
      deletion.

    scikit-learn, pandas, joblib, DVC and the ClearML SDK are external
    collaborators.  They are taken as parameters: operations that may raise
    return [option] (or a success flag), and the tracking backend carries a
    state of its own, so that it may fail at any call, in any pattern.  So
    is the file system under pathlib: which file or directory a path leads
    to, so that distinct names may lead to one file.

    Python dictionaries are finite maps ([gmap]); Python exceptions are the
    left summand of a state-and-exception monad over the process state. *)

From stdpp Require Import gmap strings list fin_maps.
From Stdlib Require Import ZArith QArith.QArith_base.

Local Open Scope Z_scope.
Local Open Scope string_scope.

(** ** Values *)

(** Hyperparameter values: the scalars that a JSON request body can carry.
    Floats are carried as rationals; the only arithmetic the service does on a
    hyperparameter is the comparison [n_estimators > 10]. *)
Inductive hval :=
| HNone
| HBool (b : bool)
| HInt (z : Z)
| HFloat (q : Q)
| HStr (s : string).

Abbreviation Dict := (gmap string hval).
Abbreviation Metrics := (gmap string Q).

(** [hyperparameters or {}] *)
Definition or_empty (hyperparameters : option Dict) : Dict :=
  match hyperparameters with
  | Some h => h
  | None => ∅
  end.

(** [d.update(other)]: every item of [other] is stored into [d]. *)
Definition dict_update (d other : Dict) : Dict := other ∪ d.

(** Truth value of an [Optional[str]]: [None] and the empty string are false. *)
Definition truthy (o : option string) : bool :=
  match o with
  | Some s => negb (String.eqb s "")
  | None => false
  end.

(** [v > n] for an integer literal [n].  Python orders numbers (and booleans,
    which are integers); comparing [None] or a string with an integer raises
    [TypeError], rendered as [None]. *)
Definition py_gt (v : hval) (n : Z) : option bool :=
  match v with
  | HInt z => Some (Z.ltb n z)
  | HBool b => Some (Z.ltb n (if b then 1 else 0))
  | HFloat q => Some (negb (Qle_bool q (inject_Z n)))
  | HNone | HStr _ => None
  end.

(** [range(start, stop, step)] for a positive step. *)
Definition py_range (start stop step : Z) : list Z :=
  (λ k : nat, (start + Z.of_nat k * step)%Z) <$>
    seq 0 (Z.to_nat ((stop - start + step - 1) / step)%Z).

(** ** Exceptions *)

Inductive exn :=
| FileNotFoundError (name : string)
    (* model or dataset [name] not found *)
| ValueError_unknown_type (model_type : string)
    (* [model_type not in MODEL_REGISTRY] *)
| ValueError_not_trained
    (* [not self.is_trained] *)
| ValueError_not_initialised
    (* [self.model is None] *)
| TypeError
    (* raised by the interpreter on an ill-typed comparison *)
| LibraryError
    (* any exception leaving scikit-learn, pandas or the ClearML SDK *)
| OSError
    (* raised by the operating system where a directory stands for a file:
       IsADirectoryError, or PermissionError *)
| AttributeError
    (* raised by the interpreter: [.get] on hyperparameters that are a list *)
| ValueError_update.
    (* raised by [dict.update] on a sequence whose elements are no pairs *)

Definition is_ok {E A} (r : E + A) : bool :=
  match r with inr _ => true | inl _ => false end.

(** ** Capability registry ([app/ml/__init__.py]) *)

Inductive model_class := LogisticRegression | RandomForest.

Definition MODEL_REGISTRY : gmap string model_class :=
  <["LogisticRegression" := LogisticRegression]>
    (<["RandomForest" := RandomForest]> ∅).

(** [get_default_hyperparameters] of each class. *)
Definition get_default_hyperparameters (c : model_class) : Dict :=
  match c with
  | LogisticRegression =>
      <["C" := HFloat (Qmake 1 1)]>
      (<["max_iter" := HInt 100]>
      (<["solver" := HStr "lbfgs"]>
      (<["random_state" := HInt 42]> ∅)))
  | RandomForest =>
      <["n_estimators" := HInt 100]>
      (<["max_depth" := HNone]>
      (<["min_samples_split" := HInt 2]>
      (<["min_samples_leaf" := HInt 1]>
      (<["random_state" := HInt 42]> ∅))))
  end.

(** ** External collaborators *)

(** scikit-learn and pandas, as far as the capability units use them. *)
Record Sklearn := {
  DataFrame : Type;
  Series : Type;
  Estimator : Type;
  Split : Type;        (* X_train, X_test, y_train, y_test *)
  Labels : Type;       (* the array returned by [predict] *)
  (* the constructor of the scikit-learn class, called with the parameters
     as keyword arguments *)
  sk_new : model_class → Dict → option Estimator;
  (* [train_test_split(X, y, test_size=0.2, random_state=42)] *)
  sk_split : DataFrame → Series → option Split;
  (* [self.model.fit(X_train, y_train)] *)
  sk_fit : Estimator → Split → option Estimator;
  (* [self.model.predict(X_test)] followed by accuracy, precision, recall, f1 *)
  sk_eval : Estimator → Split → option (Q * Q * Q * Q);
  (* [self.model.predict(X)] *)
  sk_predict : Estimator → DataFrame → option Labels
}.

(** Text reported to the tracked run.  Only the data that the f-strings
    interpolate is kept. *)
Inductive progress_msg :=
| MsgStart (model_name model_type : string)
| MsgSplit
| MsgInit (c : model_class) (h : Dict)
| MsgSplitSizes
| MsgFitStart
| MsgForestStart (n : Z)
| MsgForestProgress (i n : Z)
| MsgFitDone
| MsgSaving (path : string)
| MsgTrained (m : Metrics).

(** The [model_metadata] dictionary attached to an uploaded model. *)
Record upload_metadata := {
  um_model_name : string;
  um_model_type : string;
  um_metrics : Metrics;
  um_hyperparameters : Dict
}.

(** The ClearML SDK.  [Backend] is the state of the tracking server together
    with the SDK's process state; every operation may change it.  An
    operation that raises returns [None] (resp. [false]). *)
Record ClearML := {
  Backend : Type;
  (* [Task.current_task()] ... [task.set_parameter]; yields [str(task.id)] *)
  sdk_create_task :
    string → string * nat → string → Dict → Backend → option string * Backend;
  (* [Task.get_task(task_id).get_logger().report_text(...)] *)
  sdk_report_text :
    string → progress_msg → option Z → Backend → bool * Backend;
  (* [report_single_value] for each metric *)
  sdk_report_metrics :
    string → Metrics → option Z → Backend → bool * Backend;
  (* boto3 upload and [OutputModel] registration; yields [str(model_id)] *)
  sdk_upload_model :
    string → string → string → upload_metadata → Backend →
    option string * Backend;
  (* [Task.get_task(task_id=...).close()] *)
  sdk_close_task : string → Backend → bool * Backend
}.

(** [app/config.py]: the settings read by the tracking service, and whether
    the [clearml] package could be imported. *)
Record Settings := {
  CLEARML_AVAILABLE : bool;
  clearml_api_host : option string;
  clearml_access_key : option string;
  clearml_secret_key : option string
}.

(** ** Paths *)

(** [s.split("/")] (character 47). *)
Fixpoint split_slash (s : string) : list string :=
  match s with
  | EmptyString => [EmptyString]
  | String c rest =>
      if Ascii.eqb c (Ascii.ascii_of_nat 47)
      then EmptyString :: split_slash rest
      else
        match split_slash rest with
        | [] => [String c EmptyString]
        | x :: xs => String c x :: xs
        end
  end.

(** The parts that pathlib keeps of a path: empty components and [.] are
    dropped, [..] stays. *)
Definition Path_parts (s : string) : list string :=
  filter (λ c, c ≠ "" ∧ c ≠ ".") (split_slash s).

(** A name that is one part and stays inside its directory: no slash, and
    none of the empty name, [.] and [..]. *)
Definition is_plain (name : string) : bool :=
  bool_decide (Path_parts name = [name] ∧ name ≠ "..").

(** What a path leads to: the place of a regular file, which is there or
    not, or a directory. *)
Inductive target :=
| File (location : string)
| Directory (st_size : nat).

(** pathlib and the operating system under it.  A path is given as the
    services hand it to pathlib, relative to the directory of the service.
    Paths lead to one file, as [a] and [./a] do, exactly when they have one
    location.  The services create and remove files, never directories, so
    that what a path leads to does not change; every directory on the way of
    a path is taken to be there, and disks that fill up or refuse access are
    not modelled. *)
Class FileSystem := {
  (* [models_dir / path], for a path that ends in [.joblib]: the location of
     the file *)
  artifact_file : string → string;
  (* [datasets_dir / path] *)
  dataset_target : string → target;
  (* [(datasets_dir / path).with_suffix(suffix + ".dvc")], where [dvc add]
     writes the sidecar of the file *)
  sidecar_target : string → target;
  (* [datasets_dir.name] *)
  datasets_dir_name : string
}.

(** ** Process state and the exception monad *)

(** Effects on the two stores, in the order in which they happen. *)
Inductive event :=
| EvArtifactWritten (path : string)     (* [joblib.dump(self, path)] *)
| EvArtifactRemoved (path : string)     (* [model_path.unlink()] *)
| EvRecordSet (model_name : string)     (* [self._metadata[name] = ...] *)
| EvRecordDeleted (model_name : string) (* [del self._metadata[name]] *)
| EvMetadataSaved.                      (* [self._save_metadata()] *)

Section Service.
Context {sk : Sklearn} {cl : ClearML} {fs : FileSystem}.

(** [BaseMLModel]: a capability unit. *)
Record BaseMLModel := {
  cls : model_class;
  hyperparameters : Dict;
  model : option (Estimator sk);
  is_trained : bool
}.

(** One value of the [_metadata] dictionary. *)
Record ModelRecord := {
  rec_type : string;
  rec_created_at : nat;
  rec_metrics : Metrics;
  rec_hyperparameters : Dict;
  rec_clearml_task_id : option string
}.

Record world := {
  files : gmap string BaseMLModel;
    (* [models_dir]: location of a file to the unit dumped there *)
  metadata : gmap string ModelRecord;
    (* [self._metadata] *)
  metadata_file : option (gmap string ModelRecord);
    (* [models_dir / "metadata.json"] *)
  backend : Backend cl;
  clock : nat;
  trace : list event
}.

Definition set_files (f : gmap string BaseMLModel) (w : world) : world :=
  {| files := f; metadata := metadata w; metadata_file := metadata_file w;
     backend := backend w; clock := clock w; trace := trace w |}.

Definition set_metadata (m : gmap string ModelRecord) (w : world) : world :=
  {| files := files w; metadata := m; metadata_file := metadata_file w;
     backend := backend w; clock := clock w; trace := trace w |}.

Definition set_metadata_file (m : option (gmap string ModelRecord))
    (w : world) : world :=
  {| files := files w; metadata := metadata w; metadata_file := m;
     backend := backend w; clock := clock w; trace := trace w |}.

Definition set_backend (b : Backend cl) (w : world) : world :=
  {| files := files w; metadata := metadata w; metadata_file := metadata_file w;
     backend := b; clock := clock w; trace := trace w |}.

Definition set_clock (c : nat) (w : world) : world :=
  {| files := files w; metadata := metadata w; metadata_file := metadata_file w;
     backend := backend w; clock := c; trace := trace w |}.

Definition emit (e : event) (w : world) : world :=
  {| files := files w; metadata := metadata w; metadata_file := metadata_file w;
     backend := backend w; clock := clock w; trace := trace w ++ [e] |}.

(** A computation either raises or returns; the state it leaves behind is
    kept in both cases. *)
Definition M (A : Type) : Type := world → (exn + A) * world.

#[global] Instance M_ret : MRet M := λ A a w, (inr a, w).

#[global] Instance M_bind : MBind M := λ A B k m w,
  match m w with
  | (inl e, w') => (inl e, w')
  | (inr a, w') => k a w'
  end.

Definition raise {A} (e : exn) : M A := λ w, (inl e, w).

(** [try: m  except Exception as e: h e] *)
Definition try_except {A} (m : M A) (h : exn → M A) : M A := λ w,
  match m w with
  | (inl e, w') => h e w'
  | (inr a, w') => (inr a, w')
  end.

(** [except Exception: pass], and the handlers that only log. *)
Definition swallow (m : M unit) : M unit := try_except m (λ _, mret tt).

Definition modify (f : world → world) : M unit := λ w, (inr tt, f w).

(** [datetime.now()] *)
Definition now : M nat := λ w, (inr (clock w), set_clock (S (clock w)) w).

(** A call into scikit-learn. *)
Definition lift_sk {A} (r : option A) : M A :=
  match r with
  | Some a => mret a
  | None => raise LibraryError
  end.

(** A call into the ClearML SDK. *)
Definition sdk {A} (op : Backend cl → option A * Backend cl) : M A := λ w,
  match op (backend w) with
  | (Some a, b) => (inr a, set_backend b w)
  | (None, b) => (inl LibraryError, set_backend b w)
  end.

Definition sdk_ (op : Backend cl → bool * Backend cl) : M unit := λ w,
  match op (backend w) with
  | (true, b) => (inr tt, set_backend b w)
  | (false, b) => (inl LibraryError, set_backend b w)
  end.

(** [if clearml_task_id: f(clearml_task_id)] *)
Definition if_task (task_id : option string) (f : string → M unit) : M unit :=
  match task_id with
  | Some s => if truthy task_id then f s else mret tt
  | None => mret tt
  end.

(** [for x in xs: body x] *)
Fixpoint for_each {A} (xs : list A) (body : A → M unit) : M unit :=
  match xs with
  | [] => mret tt
  | x :: xs' => body x ;; for_each xs' body
  end.

(** ** [app/services/clearml_service.py] *)

Record ClearMLService := { enabled : bool }.

Definition _is_configured (settings : Settings) : bool :=
  truthy (clearml_api_host settings)
  && truthy (clearml_access_key settings)
  && truthy (clearml_secret_key settings).

Definition ClearMLService_init (settings : Settings) : ClearMLService :=
  {| enabled := CLEARML_AVAILABLE settings && _is_configured settings |}.

Definition create_training_task (self : ClearMLService)
    (project_name : string) (task_name : string * nat) (model_type : string)
    (hp : Dict) : M (option string) :=
  if negb (enabled self) then mret None
  else
    try_except
      (id ← sdk (sdk_create_task cl project_name task_name model_type hp);
       mret (Some id))
      (λ _, mret None).

Definition log_metrics (self : ClearMLService) (task_id : string)
    (metrics : Metrics) (iteration : option Z) : M unit :=
  if negb (enabled self) then mret tt
  else swallow (sdk_ (sdk_report_metrics cl task_id metrics iteration)).

Definition log_training_progress (self : ClearMLService) (task_id : string)
    (message : progress_msg) (iteration : option Z) : M unit :=
  if negb (enabled self) then mret tt
  else swallow (sdk_ (sdk_report_text cl task_id message iteration)).

Definition upload_model (self : ClearMLService) (task_id model_path
    model_name : string) (meta : upload_metadata) : M (option string) :=
  if negb (enabled self) then mret None
  else
    try_except
      (id ← sdk (sdk_upload_model cl task_id model_path model_name meta);
       mret (Some id))
      (λ _, mret None).

(** ** [app/ml/base.py], [random_forest.py], [logistic_regression.py] *)

Definition set_model (est : Estimator sk) (self : BaseMLModel) : BaseMLModel :=
  {| cls := cls self; hyperparameters := hyperparameters self;
     model := Some est; is_trained := is_trained self |}.

Definition set_is_trained (b : bool) (self : BaseMLModel) : BaseMLModel :=
  {| cls := cls self; hyperparameters := hyperparameters self;
     model := model self; is_trained := b |}.

(** [BaseMLModel.__init__] *)
Definition BaseMLModel_init (c : model_class) (hp : option Dict)
    : BaseMLModel :=
  {| cls := c; hyperparameters := or_empty hp; model := None;
     is_trained := false |}.

(** [_get_model_params], the same in both classes. *)
Definition _get_model_params (self : BaseMLModel) : Dict :=
  let defaults := get_default_hyperparameters (cls self) in
  dict_update defaults (hyperparameters self).

(** [RandomForest.__init__] / [LogisticRegression.__init__]:
    [model_class(hyperparameters=hp)]. *)
Definition new_model (c : model_class) (hp : option Dict) : M BaseMLModel :=
  let self := BaseMLModel_init c hp in
  est ← lift_sk (sk_new sk c (_get_model_params self));
  mret (set_model est self).

(** [if self.model is None: raise ValueError(...)] *)
Definition model_or_raise (self : BaseMLModel) : M (Estimator sk) :=
  match model self with
  | Some est => mret est
  | None => raise ValueError_not_initialised
  end.

(** The block repeated in both [train] methods:
    [try: ClearMLService().log_training_progress(task_id, msg)
     except Exception: pass] *)
Definition unit_progress (settings : Settings) (task_id : string)
    (message : progress_msg) : M unit :=
  swallow
    (let clearml_service := ClearMLService_init settings in
     log_training_progress clearml_service task_id message None).

(** The dictionary of the four quality metrics. *)
Definition metrics_dict (ms : Q * Q * Q * Q) : Metrics :=
  let '(accuracy, precision, recall, f1) := ms in
  <["accuracy" := accuracy]>
  (<["precision" := precision]>
  (<["recall" := recall]>
  (<["f1" := f1]> ∅))).

(** An [int] (or [bool]) usable as an argument of [range] and [//]. *)
Definition as_int (v : hval) : option Z :=
  match v with
  | HInt z => Some z
  | HBool b => Some (if b then 1 else 0)
  | _ => None
  end.

(** The body of the [try] at [random_forest.py] lines 102-120: progress
    messages for every tenth of the ensemble.  A float [n_estimators] makes
    [range] raise [TypeError]. *)
Definition forest_progress (settings : Settings) (task_id : string)
    (n_estimators : hval) : M unit :=
  let clearml_service := ClearMLService_init settings in
  match as_int n_estimators with
  | Some n =>
      for_each (py_range 0 n (Z.max 1 (n / 10))) (λ i,
        if Z.eqb i 0 then
          log_training_progress clearml_service task_id (MsgForestStart n) None
        else if Z.ltb i n then
          log_training_progress clearml_service task_id
            (MsgForestProgress i n) (Some i)
        else mret tt)
  | None => raise TypeError
  end.

(** [clearml_task_id and n_estimators > 10]: the comparison is evaluated only
    when the task id is truthy, and outside any [try]. *)
Definition forest_announce (task_id : option string) (n_estimators : hval)
    : M bool :=
  if truthy task_id then
    match py_gt n_estimators 10 with
    | Some b => mret b
    | None => raise TypeError
    end
  else mret false.

(** [RandomForest.train].  The unit is mutated in place by the source; here
    the updated unit is returned next to the metrics. *)
Definition RandomForest_train (settings : Settings) (self : BaseMLModel)
    (X : DataFrame sk) (y : Series sk) (clearml_task_id : option string)
    : M (BaseMLModel * Metrics) :=
  if_task clearml_task_id (λ t,
    unit_progress settings t (MsgInit RandomForest (hyperparameters self)));;
  if_task clearml_task_id (λ t, unit_progress settings t MsgSplitSizes);;
  sp ← lift_sk (sk_split sk X y);
  let n_estimators :=
    default (HInt 100) (hyperparameters self !! "n_estimators") in
  announce ← forest_announce clearml_task_id n_estimators;
  if_task clearml_task_id (λ t,
    if announce : bool then swallow (forest_progress settings t n_estimators)
    else mret tt);;
  est ← model_or_raise self;
  est' ← lift_sk (sk_fit sk est sp);
  let self := set_is_trained true (set_model est' self) in
  if_task clearml_task_id (λ t, unit_progress settings t MsgFitDone);;
  est'' ← model_or_raise self;
  ms ← lift_sk (sk_eval sk est'' sp);
  mret (self, metrics_dict ms).

(** [LogisticRegression.train] *)
Definition LogisticRegression_train (settings : Settings) (self : BaseMLModel)
    (X : DataFrame sk) (y : Series sk) (clearml_task_id : option string)
    : M (BaseMLModel * Metrics) :=
  if_task clearml_task_id (λ t,
    unit_progress settings t
      (MsgInit LogisticRegression (hyperparameters self)));;
  if_task clearml_task_id (λ t, unit_progress settings t MsgSplitSizes);;
  sp ← lift_sk (sk_split sk X y);
  if_task clearml_task_id (λ t, unit_progress settings t MsgFitStart);;
  est ← model_or_raise self;
  est' ← lift_sk (sk_fit sk est sp);
  let self := set_is_trained true (set_model est' self) in
  if_task clearml_task_id (λ t, unit_progress settings t MsgFitDone);;
  est'' ← model_or_raise self;
  ms ← lift_sk (sk_eval sk est'' sp);
  mret (self, metrics_dict ms).

(** [model.train(X, y, clearml_task_id=...)], dispatched on the class. *)
Definition BaseMLModel_train (settings : Settings) (self : BaseMLModel)
    (X : DataFrame sk) (y : Series sk) (clearml_task_id : option string)
    : M (BaseMLModel * Metrics) :=
  match cls self with
  | RandomForest => RandomForest_train settings self X y clearml_task_id
  | LogisticRegression =>
      LogisticRegression_train settings self X y clearml_task_id
  end.

(** [predict], the same in both classes. *)
Definition BaseMLModel_predict (self : BaseMLModel) (X : DataFrame sk)
    : M (Labels sk) :=
  if negb (is_trained self) then raise ValueError_not_trained
  else
    est ← model_or_raise self;
    lift_sk (sk_predict sk est X).

(** [BaseMLModel.save]: [joblib.dump(self, path)] unless the unit is
    untrained. *)
Definition BaseMLModel_save (self : BaseMLModel) (path : string) : M unit :=
  if negb (is_trained self) then raise ValueError_not_trained
  else
    modify (λ w, emit (EvArtifactWritten path)
                   (set_files (<[path := self]> (files w)) w)).

(** [BaseMLModel.load]: [joblib.load(path)] *)
Definition BaseMLModel_load (path : string) : M BaseMLModel := λ w,
  match files w !! path with
  | Some u => (inr u, w)
  | None => (inl LibraryError, w)
  end.

(** ** [app/services/model_service.py] *)

(** [self.models_dir / f"{model_name}.joblib"]: the file that this path
    leads to.  Model names that pathlib or the operating system take to the
    same file have the same [model_path]. *)
Definition model_path (model_name : string) : string :=
  artifact_file (model_name +:+ ".joblib").

(** [model_path.exists()] *)
Definition exists_artifact (path : string) : M bool := λ w,
  (inr (bool_decide (is_Some (files w !! path))), w).

(** [_load_metadata], called once by [ModelService.__init__]. *)
Definition _load_metadata (w : world) : gmap string ModelRecord :=
  match metadata_file w with
  | Some m => m
  | None => ∅
  end.

Definition ModelService_init : M unit :=
  modify (λ w, set_metadata (_load_metadata w) w).

Definition _save_metadata : M unit :=
  modify (λ w, emit EvMetadataSaved
                 (set_metadata_file (Some (metadata w)) w)).

(** Lines 115-134 of [train_model]: opening the tracked run. *)
Definition open_run (clearml_service : ClearMLService)
    (model_type model_name : string) (hp : option Dict)
    : M (option string) :=
  if enabled clearml_service then
    clearml_task_id ←
      try_except
        (stamp ← now;
         create_training_task clearml_service "MLOps" (model_name, stamp)
           model_type (or_empty hp))
        (λ _, mret None);
    swallow
      (if_task clearml_task_id (λ t,
         log_training_progress clearml_service t
           (MsgStart model_name model_type) None));;
    mret clearml_task_id
  else mret None.

(** Lines 157-193 of [train_model]: metrics, final message, upload, close. *)
Definition close_run (clearml_service : ClearMLService) (task_id : string)
    (model_type model_name : string) (hp : option Dict) (metrics : Metrics)
    : M unit :=
  swallow
    (log_metrics clearml_service task_id metrics None;;
     log_training_progress clearml_service task_id (MsgTrained metrics) None;;
     let model_metadata :=
       {| um_model_name := model_name; um_model_type := model_type;
          um_metrics := metrics; um_hyperparameters := or_empty hp |} in
     _ ← upload_model clearml_service task_id (model_path model_name)
           model_name model_metadata;
     swallow (sdk_ (sdk_close_task cl task_id))).

Definition train_model (settings : Settings) (model_type model_name : string)
    (X : DataFrame sk) (y : Series sk) (hp : option Dict)
    : M (BaseMLModel * Metrics * option string) :=
  let clearml_service := ClearMLService_init settings in
  match MODEL_REGISTRY !! model_type with
  | None => raise (ValueError_unknown_type model_type)
  | Some model_class =>
      clearml_task_id ← open_run clearml_service model_type model_name hp;
      model ← new_model model_class hp;
      if_task clearml_task_id (λ t,
        log_training_progress clearml_service t MsgSplit None);;
      '(model, metrics) ←
        BaseMLModel_train settings model X y clearml_task_id;
      if_task clearml_task_id (λ t,
        log_training_progress clearml_service t
          (MsgSaving (model_path model_name)) None);;
      BaseMLModel_save model (model_path model_name);;
      if_task clearml_task_id (λ t,
        close_run clearml_service t model_type model_name hp metrics);;
      created_at ← now;
      modify (λ w, emit (EvRecordSet model_name)
        (set_metadata
           (<[model_name :=
                {| rec_type := model_type;
                   rec_created_at := created_at;
                   rec_metrics := metrics;
                   rec_hyperparameters := or_empty hp;
                   rec_clearml_task_id := clearml_task_id |}]> (metadata w))
           w));;
      _save_metadata;;
      mret (model, metrics, clearml_task_id)
  end.

Definition load_model (model_name : string) : M BaseMLModel :=
  found ← exists_artifact (model_path model_name);
  if negb found then raise (FileNotFoundError model_name)
  else BaseMLModel_load (model_path model_name).

(** [list_models]: name, type, creation time and metrics of every record. *)
Definition list_models (w : world)
    : list (string * (string * nat * Metrics)) :=
  (λ kv, (kv.1, (rec_type kv.2, rec_created_at kv.2, rec_metrics kv.2)))
    <$> map_to_list (metadata w).

Definition delete_model (model_name : string) : M bool :=
  found ← exists_artifact (model_path model_name);
  if negb found then raise (FileNotFoundError model_name)
  else
    modify (λ w, emit (EvArtifactRemoved (model_path model_name))
                   (set_files (delete (model_path model_name) (files w)) w));;
    in_metadata ← (λ w, (inr (bool_decide (is_Some (metadata w !! model_name))), w));
    (if in_metadata : bool then
       modify (λ w, emit (EvRecordDeleted model_name)
                      (set_metadata (delete model_name (metadata w)) w));;
       _save_metadata
     else mret tt);;
    mret true.

Definition retrain_model (settings : Settings) (model_name : string)
    (X : DataFrame sk) (y : Series sk) (hp : option Dict)
    : M (BaseMLModel * Metrics * option string) :=
  record ← (λ w, (inr (metadata w !! model_name), w));
  match record with
  | None => raise (FileNotFoundError model_name)
  | Some r =>
      let model_type := rec_type r in
      let hp :=
        match hp with
        | None => Some (rec_hyperparameters r)
        | Some h => Some h
        end in
      train_model settings model_type model_name X y hp
  end.

(** The predict operation of both transports
    ([api/routes/models.py] lines 136-142, [grpc_service/server.py] lines
    177-184): load the unit by name, then ask it for predictions. *)
Definition predict (model_name : string) (rows : DataFrame sk)
    : M (Labels sk) :=
  model ← load_model model_name;
  BaseMLModel_predict model rows.


(** ** Derived notions used by the statements *)

(** The part of the state that the lifecycle is about: both stores and the
    order of the effects on them.  The tracking backend and the clock are
    left out. *)
Definition same_stores (w w' : world) : Prop :=
  files w = files w' ∧ metadata w = metadata w'
  ∧ metadata_file w = metadata_file w' ∧ trace w = trace w'.

(** [harmless m]: whatever [m] does, and whether or not it raises, the
    stores are left as they were. *)
Definition harmless {A} (m : M A) : Prop :=
  ∀ w, same_stores w (m w).2.

(** [quiet m]: [m] is harmless and never raises. *)
Definition quiet {A} (m : M A) : Prop :=
  ∀ w, ∃ a, (m w).1 = inr a ∧ same_stores w (m w).2.

(** Does the guard [clearml_task_id and n_estimators > 10] of
    [RandomForest.train] raise? *)
Definition guard_raises (c : model_class) (tracked : bool) (v : hval) : bool :=
  match c with
  | RandomForest => tracked && bool_decide (py_gt v 10 = None)
  | LogisticRegression => false
  end.

(** The result of [train] as a function of the unit, the data and of whether
    a run is being tracked. *)
Definition fit_outcome (self : BaseMLModel) (X : DataFrame sk) (y : Series sk)
    (tracked : bool) : exn + (BaseMLModel * Metrics) :=
  match sk_split sk X y with
  | None => inl LibraryError
  | Some sp =>
      let n_estimators :=
        default (HInt 100) (hyperparameters self !! "n_estimators") in
      if guard_raises (cls self) tracked n_estimators then inl TypeError
      else
        match model self with
        | None => inl ValueError_not_initialised
        | Some est =>
            match sk_fit sk est sp with
            | None => inl LibraryError
            | Some est' =>
                match sk_eval sk est' sp with
                | None => inl LibraryError
                | Some ms =>
                    inr (set_is_trained true (set_model est' self),
                         metrics_dict ms)
                end
            end
        end
  end.

(** Construction and training of a unit as one function of the request. *)
Definition train_outcome (c : model_class) (hp : option Dict)
    (X : DataFrame sk) (y : Series sk) (tracked : bool)
    : exn + (BaseMLModel * Metrics) :=
  match sk_new sk c (_get_model_params (BaseMLModel_init c hp)) with
  | None => inl LibraryError
  | Some est => fit_outcome (set_model est (BaseMLModel_init c hp)) X y tracked
  end.

(** The record that [train_model] stores. *)
Definition new_record (model_type : string) (created_at : nat)
    (metrics : Metrics) (hp : option Dict) (task_id : option string)
    : ModelRecord :=
  {| rec_type := model_type; rec_created_at := created_at;
     rec_metrics := metrics; rec_hyperparameters := or_empty hp;
     rec_clearml_task_id := task_id |}.

(** The lockstep invariant between the two stores: every record has its
    artifact file, and every artifact file has a record. *)
Definition in_lockstep (w : world) : Prop :=
  (∀ name,
     is_Some (metadata w !! name) → is_Some (files w !! model_path name))
  ∧ (∀ path,
       is_Some (files w !! path) →
       ∃ name, model_path name = path ∧ is_Some (metadata w !! name)).

(** No record other than that of [model_name] points at the artifact file of
    [model_name]. *)
Definition unshared (w : world) (model_name : string) : Prop :=
  ∀ name,
    is_Some (metadata w !! name) →
    model_path name = model_path model_name → name = model_name.

(** Every unit in the artifact store has its [is_trained] flag set. *)
Definition all_trained (w : world) : Prop :=
  ∀ path u, files w !! path = Some u → is_trained u = true.

(** The operations of the orchestrator, as requests. *)
Inductive request :=
| Train (model_type model_name : string) (X : DataFrame sk) (y : Series sk)
    (hp : option Dict)
| Retrain (model_name : string) (X : DataFrame sk) (y : Series sk)
    (hp : option Dict)
| Delete (model_name : string)
| Predict (model_name : string) (rows : DataFrame sk).

(** The state in which a request leaves the process. *)
Definition serve (settings : Settings) (rq : request) (w : world) : world :=
  match rq with
  | Train model_type model_name X y hp =>
      (train_model settings model_type model_name X y hp w).2
  | Retrain model_name X y hp =>
      (retrain_model settings model_name X y hp w).2
  | Delete model_name => (delete_model model_name w).2
  | Predict model_name rows => (predict model_name rows w).2
  end.

(** States reached from an empty models directory by serving requests:
    every artifact in such a state was persisted by [train_model]. *)
Inductive reachable : world → Prop :=
| reachable_empty w : files w = ∅ → reachable w
| reachable_serve settings rq w :
    reachable w → reachable (serve settings rq w).

(** What a caller of [train_model] learns about success and quality: the
    metrics, or nothing when the call raised. *)
Definition returned_metrics
    (r : exn + (BaseMLModel * Metrics * option string)) : option Metrics :=
  match r with
  | inr (_, metrics, _) => Some metrics
  | inl _ => None
  end.

Definition returned_unit
    (r : exn + (BaseMLModel * Metrics * option string)) : option BaseMLModel :=
  match r with
  | inr (m, _, _) => Some m
  | inl _ => None
  end.

Definition returned_task_id
    (r : exn + (BaseMLModel * Metrics * option string)) : option string :=
  match r with
  | inr (_, _, task_id) => task_id
  | inl _ => None
  end.

End Service.

Arguments BaseMLModel : clear implicits.
Arguments world : clear implicits.
Arguments M : clear implicits.
Arguments request : clear implicits.

(** scikit-learn validates [n_estimators] when fitting: a forest constructed
    with a value that cannot be compared with an integer ([None], a string)
    is rejected by [fit]. *)
Definition validates_n_estimators (sk : Sklearn) : Prop :=
  ∀ params est sp v,
    sk_new sk RandomForest params = Some est →
    params !! "n_estimators" = Some v →
    py_gt v 10 = None →
    sk_fit sk est sp = None.

(** ** [app/services/dataset_service.py], [app/services/dvc_service.py] *)

(** pandas and DVC, as far as the dataset repository uses them. *)
Record Pandas := {
  Frame : Type;
  Content : Type;
  to_csv : Frame → Content;      (* [data.to_csv(path, index=False)] *)
  to_json : Frame → Content;     (* [data.to_json(path, orient="records")] *)
  read_csv : Content → option Frame;
  read_json : Content → option Frame;
  frame_shape : Frame → nat * list string;  (* [len(df)], [df.columns] *)
  content_size : Content → nat;             (* [stat.st_size] *)
  (* the [dvc] command line tool *)
  dvc_version_ok : bool;          (* [dvc version] exits with 0 *)
  dvc_add_ok : string → bool;     (* [dvc add path] exits with 0 in time *)
  dvc_push_ok : string → bool;    (* [dvc push path.dvc] exits with 0 *)
  dvc_sidecar : string → Content  (* the [.dvc] file written by [dvc add] *)
}.

(** [s.endswith(suffix)] *)
Definition endswith (s suffix : string) : bool :=
  let n := String.length s in
  let m := String.length suffix in
  (m <=? n)%nat && String.eqb (String.substring (n - m) m s) suffix.

(** [name[i:]] for [i = name.rfind('.')], if there is a dot (character 46). *)
Fixpoint from_last_dot (name : string) : option string :=
  match name with
  | EmptyString => None
  | String c rest =>
      match from_last_dot rest with
      | Some t => Some t
      | None => if Ascii.eqb c (Ascii.ascii_of_nat 46) then Some name else None
      end
  end.

(** [pathlib]'s [suffix] of a file name: empty unless the last dot is
    neither the first nor the last character. *)
Definition Path_suffix (name : string) : string :=
  match from_last_dot name with
  | Some t =>
      if (1 <? String.length t)%nat
         && (String.length t <? String.length name)%nat
      then t else ""
  | None => ""
  end.

Record DatasetInfo := {
  info_name : string;
  info_size : nat;
  info_rows : option nat;
  info_columns : option (list string)
}.

(** A file system is flat if every plain name leads to the place of a file
    of the datasets directory, and if that place is called by the name; the
    sidecar of such a file is the file of that name with [.dvc] appended.
    The files of the directory are then the files at plain locations. *)
Definition flat (fs : FileSystem) : Prop :=
  ∀ name,
    is_plain name = true →
    dataset_target name = File name
    ∧ sidecar_target name = File (name +:+ ".dvc").

Section Datasets.
Context {pd : Pandas} {fs : FileSystem}.

(** The regular files that dataset names lead to, by location. *)
Abbreviation Dir := (gmap string (Content pd)).

(** [(datasets_dir / path).name]: the last part of the path, and the name of
    the directory itself when the path has no part. *)
Definition Path_name (path : string) : string :=
  match last (Path_parts path) with
  | Some part => part
  | None =>
      match path with
      | String c _ =>
          if Ascii.eqb c (Ascii.ascii_of_nat 47) then "" else datasets_dir_name
      | EmptyString => datasets_dir_name
      end
  end.

(** [exists()] of what a path leads to. *)
Definition exists_at (t : target) (dir : Dir) : bool :=
  match t with
  | File location => bool_decide (is_Some (dir !! location))
  | Directory _ => true
  end.

(** [(datasets_dir / path).exists()] *)
Definition Path_exists (path : string) (dir : Dir) : bool :=
  exists_at (dataset_target path) dir.

(** [unlink()] of what a path leads to. *)
Definition unlink (t : target) (dir : Dir) : exn + Dir :=
  match t with
  | File location => inr (delete location dir)
  | Directory _ => inl OSError
  end.

(** [data.to_csv(file_path)], [data.to_json(file_path)]: writing the file
    that a path leads to. *)
Definition write_file (path : string) (content : Content pd) (dir : Dir)
    : exn + Dir :=
  match dataset_target path with
  | File location => inr (<[location := content]> dir)
  | Directory _ => inl OSError
  end.

(** [file_path.stat().st_size] *)
Definition stat (path : string) (dir : Dir) : option nat :=
  match dataset_target path with
  | File location => content_size pd <$> dir !! location
  | Directory st_size => Some st_size
  end.

(** The loop [for ext in [".csv", ".json"]] of [_find_dataset_file]. *)
Fixpoint find_with_extension (name : string) (exts : list string) (dir : Dir)
    : option string :=
  match exts with
  | [] => None
  | ext :: exts' =>
      if negb (endswith name ext) && Path_exists (name +:+ ext) dir
      then Some (name +:+ ext)
      else find_with_extension name exts' dir
  end.

(** The path found, relative to the datasets directory. *)
Definition _find_dataset_file (name : string) (dir : Dir) : option string :=
  if Path_exists name dir then Some name
  else find_with_extension name [".csv"; ".json"] dir.

(** Reading the file found: JSON by suffix, CSV otherwise.  Reading a
    directory raises [IsADirectoryError]; a parser that raises is a
    [LibraryError]. *)
Definition read_file (path : string) (dir : Dir) : exn + Frame pd :=
  match dataset_target path with
  | Directory _ => inl OSError
  | File location =>
      match dir !! location with
      | None => inl LibraryError
      | Some content =>
          let parsed :=
            if String.eqb (Path_suffix (Path_name path)) ".json"
            then read_json pd content
            else read_csv pd content in
          match parsed with
          | Some data => inr data
          | None => inl LibraryError
          end
      end
  end.

Definition load_dataset (name : string) (dir : Dir) : exn + Frame pd :=
  match _find_dataset_file name dir with
  | None => inl (FileNotFoundError name)
  | Some file_path => read_file file_path dir
  end.

Definition get_dataset_info (name : string) (dir : Dir) : exn + DatasetInfo :=
  match _find_dataset_file name dir with
  | None => inl (FileNotFoundError name)
  | Some file_path =>
      match stat file_path dir with
      | None => inl LibraryError
      | Some st_size =>
          let shape :=
            match read_file file_path dir with
            | inr df => Some (frame_shape pd df)
            | inl _ => None
            end in
          inr {| info_name := Path_name file_path;
                 info_size := st_size;
                 info_rows := fst <$> shape;
                 info_columns := snd <$> shape |}
      end
  end.

(** [DVCService.add_dataset]: a successful [dvc add] has written the sidecar
    next to the data file, if there is the place of a file for it. *)
Definition add_dataset (dataset_name : string) (dir : Dir) : bool * Dir :=
  if negb (dvc_version_ok pd) then (false, dir)
  else if negb (Path_exists dataset_name dir) then (false, dir)
  else if dvc_add_ok pd dataset_name then
    (true,
     match sidecar_target dataset_name with
     | File location => <[location := dvc_sidecar pd dataset_name]> dir
     | Directory _ => dir
     end)
  else (false, dir).

Definition push_dataset (dataset_name : string) : bool :=
  if negb (dvc_version_ok pd) then false else dvc_push_ok pd dataset_name.

Definition _upload_to_s3_via_dvc (dataset_name : string) (dir : Dir) : Dir :=
  if negb (dvc_version_ok pd) then dir
  else
    let '(added, dir) := add_dataset dataset_name dir in
    let _ := if added then push_dataset dataset_name else false in
    dir.

Definition save_dataset (name : string) (data : Frame pd) (dir : Dir)
    : (exn + DatasetInfo) * Dir :=
  let '(name, written) :=
    if endswith name ".json" then
      (name, write_file name (to_json pd data) dir)
    else
      let name :=
        if negb (endswith name ".csv") then name +:+ ".csv" else name in
      (name, write_file name (to_csv pd data) dir) in
  match written with
  | inl e => (inl e, dir)
  | inr dir =>
      let dir := _upload_to_s3_via_dvc name dir in
      (get_dataset_info name dir, dir)
  end.

Definition delete_dataset (name : string) (dir : Dir) : (exn + bool) * Dir :=
  match _find_dataset_file name dir with
  | None => (inl (FileNotFoundError name), dir)
  | Some file_path =>
      match unlink (dataset_target file_path) dir with
      | inl e => (inl e, dir)
      | inr dir =>
          let dvc_file := sidecar_target file_path in
          if exists_at dvc_file dir then
            match unlink dvc_file dir with
            | inl e => (inl e, dir)
            | inr dir => (inr true, dir)
            end
          else (inr true, dir)
      end
  end.


End Datasets.

(** ** More of the orchestrator *)

Section ServiceMore.
Context {sk : Sklearn} {cl : ClearML} {fs : FileSystem}.

(** The metadata file holds what the process holds in memory. *)
Definition synced (w : world sk cl) : Prop :=
  metadata_file w = Some (metadata w).

(** A process restart: a new [ModelService] over the same directory. *)
Definition restart (w : world sk cl) : world sk cl :=
  (ModelService_init (sk := sk) (cl := cl) w).2.

(** The model name that a request is about. *)
Definition subject (rq : request sk) : string :=
  match rq with
  | Train _ model_name _ _ _ | Retrain model_name _ _ _
  | Delete model_name | Predict model_name _ => model_name
  end.

(** [MODEL_REGISTRY.items()], in the order of the dictionary display. *)
Definition MODEL_REGISTRY_items : list (string * model_class) :=
  [("LogisticRegression", LogisticRegression);
   ("RandomForest", RandomForest)].

(** One entry of [get_available_model_types]; the description text is
    kept as the class it describes. *)
Record ModelType := {
  mt_name : string;
  mt_description : model_class;
  mt_hyperparameters : Dict
}.

(** The loop of [get_available_model_types]: every class is instantiated
    without hyperparameters and asked for its defaults. *)
Fixpoint collect_model_types (items : list (string * model_class))
    : M sk cl (list ModelType) :=
  match items with
  | [] => mret []
  | (name, model_class) :: rest =>
      instance ← new_model model_class None;
      model_types ← collect_model_types rest;
      mret ({| mt_name := name;
               mt_description := model_class;
               mt_hyperparameters :=
                 get_default_hyperparameters (cls instance) |}
            :: model_types)
  end.

Definition get_available_model_types : M sk cl (list ModelType) :=
  collect_model_types MODEL_REGISTRY_items.

End ServiceMore.

(** ** More of the tracking service *)

(** The read side of the ClearML SDK. *)
Record ClearMLQueries (cl : ClearML) := {
  (* [Model(model_name=...).get_local_copy()]; the path may be [None] *)
  sdk_get_local_copy :
    string → Backend cl → option (option string) * Backend cl;
  (* [Model.query_models(project_name=..., only_published=False)] *)
  sdk_query_models : string → Backend cl → option (list string) * Backend cl
}.

Arguments sdk_get_local_copy {cl} _ _ _.
Arguments sdk_query_models {cl} _ _ _.

Section TrackingMore.
Context {sk : Sklearn} {cl : ClearML} (cq : ClearMLQueries cl).

Definition get_model (self : ClearMLService) (model_name : string)
    : M sk cl (option string) :=
  if negb (enabled self) then mret None
  else
    try_except
      (model_path ← sdk (sdk_get_local_copy cq model_name);
       mret model_path)
      (λ _, mret None).

(** [ClearMLService.list_models] *)
Definition registry_models (self : ClearMLService) (project_name : string)
    : M sk cl (list string) :=
  if negb (enabled self) then mret []
  else try_except (sdk (sdk_query_models cq project_name)) (λ _, mret []).

(** The backend that a call into the SDK leaves behind when it raises. *)
Definition failed {A} (r : option A * Backend cl) : option (Backend cl) :=
  match r with
  | (None, b) => Some b
  | (Some _, _) => None
  end.

Definition failed_ (r : bool * Backend cl) : option (Backend cl) :=
  if r.1 then None else Some r.2.

(** A method of an optional service degrades: it never raises and never
    touches the stores; when the service is disabled it returns the absent
    result without any effect at all; and when the service is enabled and
    the call into the SDK raises, the exception is swallowed: the method
    returns the absent result, and nothing but what the SDK did to its
    backend has happened. *)
Definition degrades {A} (self : ClearMLService) (m : M sk cl A) (absent : A)
    (sdk_call : Backend cl → option (Backend cl)) : Prop :=
  quiet m
  ∧ (enabled self = false → ∀ w, m w = (inr absent, w))
  ∧ (enabled self = true →
     ∀ w b, sdk_call (backend w) = Some b →
            m w = (inr absent, set_backend b w)).

End TrackingMore.

(** ** More of the dataset repository *)

(** [file_path.suffix in [".csv", ".json"]] *)
Definition is_data_file (name : string) : bool :=
  String.eqb (Path_suffix name) ".csv" || String.eqb (Path_suffix name) ".json".

(** The file that [save_dataset] writes for a name. *)
Definition stored_name (name : string) : string :=
  if endswith name ".json" then name
  else if endswith name ".csv" then name
  else name +:+ ".csv".

Section DatasetsMore.
Context {pd : Pandas} {fs : FileSystem}.

(** The info of an existing file: the name of the path and the size of the
    file, and the shape that pandas reads, if it reads one. *)
Definition info_of (path : string) (content : Content pd)
    (dir : gmap string (Content pd)) : DatasetInfo :=
  let shape :=
    match read_file path dir with
    | inr df => Some (frame_shape pd df)
    | inl _ => None
    end in
  {| info_name := Path_name path; info_size := content_size pd content;
     info_rows := fst <$> shape; info_columns := snd <$> shape |}.

(** [datasets_dir.glob("*")] in a flat file system: the files at plain
    locations, by name. *)
Definition glob (dir : gmap string (Content pd))
    : list (string * Content pd) :=
  filter (λ entry, is_plain entry.1 = true) (map_to_list dir).

(** [list_datasets]: the files of the directory, in the order in which
    [glob] yields them, that have a data suffix; a file whose info cannot be
    had is logged and left out. *)
Definition list_datasets (dir : gmap string (Content pd)) : list DatasetInfo :=
  omap (λ entry : string * Content pd,
          if is_data_file entry.1 then
            match get_dataset_info entry.1 dir with
            | inr info => Some info
            | inl _ => None
            end
          else None)
       (glob dir).

(** [sync_existing_to_s3]: every data file present at the start goes
    through the versioning side-channel. *)
Definition sync_existing_to_s3 (dir : gmap string (Content pd))
    : gmap string (Content pd) :=
  if negb (dvc_version_ok pd) then dir
  else
    foldl (λ d (entry : string * Content pd),
             if is_data_file entry.1 then _upload_to_s3_via_dvc entry.1 d
             else d)
          dir (glob dir).

End DatasetsMore.

(** ** The transports ([app/api/routes/models.py],
       [app/grpc_service/server.py]) *)

(** The class of an exception, as far as the [except] clauses of the
    handlers tell classes apart. *)
Inductive exn_class := IsFileNotFoundError | IsValueError | IsOther.

(** The class of each exception of the services.  The class of an
    exception that leaves a library is not known here; it is the parameter
    [library]. *)
Definition class_of (library : exn_class) (e : exn) : exn_class :=
  match e with
  | FileNotFoundError _ => IsFileNotFoundError
  | ValueError_unknown_type _ | ValueError_not_trained
  | ValueError_not_initialised | ValueError_update => IsValueError
  | TypeError | OSError | AttributeError => IsOther
  | LibraryError => library
  end.

(** What the body of a route can raise: an exception of the services, or
    FastAPI's [HTTPException], which is an [Exception] but neither a
    [FileNotFoundError] nor a [ValueError]. *)
Inductive thrown :=
| Thrown (e : exn)
| ThrownHTTP (status_code : nat).

(** The outcome of a route: a response with its success status, or an
    [HTTPException] that leaves the route. *)
Inductive http (A : Type) :=
| Respond (status_code : nat) (body : A)
| HTTPException (status_code : nat).

Arguments Respond {A} _ _.
Arguments HTTPException {A} _.

(** [except FileNotFoundError: 404; except ValueError: 400;
     except Exception: 500] *)
Definition handlers_404_400_500 (library : exn_class) (t : thrown) : nat :=
  match t with
  | Thrown e =>
      match class_of library e with
      | IsFileNotFoundError => 404
      | IsValueError => 400
      | IsOther => 500
      end
  | ThrownHTTP _ => 500
  end%nat.

(** [except FileNotFoundError: 404; except Exception: 500] *)
Definition handlers_404_500 (library : exn_class) (t : thrown) : nat :=
  match t with
  | Thrown e =>
      match class_of library e with
      | IsFileNotFoundError => 404
      | _ => 500
      end
  | ThrownHTTP _ => 500
  end%nat.

Inductive StatusCode := OK | NOT_FOUND | INVALID_ARGUMENT | INTERNAL.

(** [except FileNotFoundError: NOT_FOUND; except Exception: INTERNAL] *)
Definition grpc_handlers (library : exn_class) (e : exn) : StatusCode :=
  match class_of library e with
  | IsFileNotFoundError => NOT_FOUND
  | _ => INTERNAL
  end.

(** The fields of the request and response schemas that the handlers
    use. *)
Record TrainRequest := {
  rq_model_type : string;
  rq_model_name : string;
  rq_dataset_name : string;
  rq_target_column : string;
  rq_hyperparameters : option Dict
}.

Record TrainResponse := {
  rs_model_name : string;
  rs_model_type : string;
  rs_metrics : Metrics;
  rs_clearml_task_id : option string
}.

(** [TrainModelRequest] and [RetrainModelRequest] of the RPC service; the
    latter has no [model_type]. *)
Record TrainModelRequest := {
  g_model_type : string;
  g_model_name : string;
  g_dataset_name : string;
  g_target_column : string;
  g_hyperparameters_json : string
}.

Record TrainModelResponse := {
  gs_model_name : string;
  gs_model_type : string;
  gs_metrics : Metrics;
  gs_clearml_task_id : string
}.

(** What [json.loads] gives for the [hyperparameters_json] of a request, as
    far as the orchestrator and the units tell values apart. *)
Inductive json_value :=
| JObject (d : Dict)
    (* an object *)
| JNull
    (* [null], Python's [None] *)
| JFalsy
    (* another value that is false: [false], [0], [""], [[]] *)
| JPairs (d : Dict)
    (* an array of pairs with texts for keys, which is true and which
       [dict.update] takes for the items of [d] *)
| JRejected (value_error : bool).
    (* any other value, all of them true: [dict.update], or the constructor
       of the estimator, raises [TypeError] on it, or [ValueError] *)

(** pandas and [json] as the handlers use them, between the frame that the
    dataset repository loads and the data that training takes. *)
Record Tabular (pd : Pandas) (sk : Sklearn) := {
  Records : Type;   (* [request.data], a list of rows *)
  (* [column in dataset.columns] *)
  has_column : Frame pd → string → bool;
  (* [dataset.drop(columns=[column])] *)
  drop_column : Frame pd → string → DataFrame sk;
  (* [dataset[column]] *)
  select_column : Frame pd → string → Series sk;
  (* [pd.DataFrame(request.data)]; [None] when it raises *)
  frame_of_records : Records → option (DataFrame sk);
  (* [json.loads(request.hyperparameters_json)]; [None] when it raises, which
     it does with a [JSONDecodeError] or a [RecursionError], neither of them
     a [FileNotFoundError] *)
  json_loads : string → option json_value;
  (* [json.loads(request.data_json)]; [None] when it raises *)
  json_loads_data : string → option Records
}.

Arguments Records {pd sk} _.
Arguments has_column {pd sk} _ _ _.
Arguments drop_column {pd sk} _ _ _.
Arguments select_column {pd sk} _ _ _.
Arguments frame_of_records {pd sk} _ _.
Arguments json_loads {pd sk} _ _.
Arguments json_loads_data {pd sk} _ _.

Section Transports.
Context {pd : Pandas} {sk : Sklearn} {cl : ClearML} {fs : FileSystem}.
Context (tb : Tabular pd sk) (library : exn_class).

(** The [try] block of the HTTP train route. *)
Definition http_train_body (settings : Settings) (request : TrainRequest)
    (dir : gmap string (Content pd)) (w : world sk cl)
    : (thrown + TrainResponse) * world sk cl :=
  match load_dataset (rq_dataset_name request) dir with
  | inl e => (inl (Thrown e), w)
  | inr dataset =>
      if negb (has_column tb dataset (rq_target_column request)) then
        (inl (ThrownHTTP 400), w)
      else
        let X := drop_column tb dataset (rq_target_column request) in
        let y := select_column tb dataset (rq_target_column request) in
        match
          train_model settings (rq_model_type request)
            (rq_model_name request) X y (rq_hyperparameters request) w
        with
        | (inl e, w') => (inl (Thrown e), w')
        | (inr (_, metrics, clearml_task_id), w') =>
            (inr {| rs_model_name := rq_model_name request;
                    rs_model_type := rq_model_type request;
                    rs_metrics := metrics;
                    rs_clearml_task_id := clearml_task_id |}, w')
        end
  end.

(** [POST /train] *)
Definition http_train (settings : Settings) (request : TrainRequest)
    (dir : gmap string (Content pd)) (w : world sk cl)
    : http TrainResponse * world sk cl :=
  match http_train_body settings request dir w with
  | (inr response, w') => (Respond 201 response, w')
  | (inl t, w') => (HTTPException (handlers_404_400_500 library t), w')
  end.

(** The [try] block of the HTTP retrain route; the model name comes from the
    path, the rest from the body. *)
Definition http_retrain_body (settings : Settings) (model_name : string)
    (request : TrainRequest) (dir : gmap string (Content pd))
    (w : world sk cl) : (thrown + TrainResponse) * world sk cl :=
  match load_dataset (rq_dataset_name request) dir with
  | inl e => (inl (Thrown e), w)
  | inr dataset =>
      if negb (has_column tb dataset (rq_target_column request)) then
        (inl (ThrownHTTP 400), w)
      else
        let X := drop_column tb dataset (rq_target_column request) in
        let y := select_column tb dataset (rq_target_column request) in
        match
          retrain_model settings model_name X y (rq_hyperparameters request) w
        with
        | (inl e, w') => (inl (Thrown e), w')
        | (inr (_, metrics, clearml_task_id), w') =>
            (inr {| rs_model_name := model_name;
                    rs_model_type := rq_model_type request;
                    rs_metrics := metrics;
                    rs_clearml_task_id := clearml_task_id |}, w')
        end
  end.

(** [PUT /{model_name}/retrain] *)
Definition http_retrain (settings : Settings) (model_name : string)
    (request : TrainRequest) (dir : gmap string (Content pd))
    (w : world sk cl) : http TrainResponse * world sk cl :=
  match http_retrain_body settings model_name request dir w with
  | (inr response, w') => (Respond 200 response, w')
  | (inl t, w') => (HTTPException (handlers_404_500 library t), w')
  end.



(** [hyperparameters = None;
     if request.hyperparameters_json: hyperparameters = json.loads(...)];
    [None] when [json.loads] raises. *)
Definition grpc_hyperparameters (hyperparameters_json : string)
    : option json_value :=
  if String.eqb hyperparameters_json "" then Some JNull
  else json_loads tb hyperparameters_json.

(** [RandomForest.train] on hyperparameters that are a list of pairs: the
    unit is constructed, and [self.hyperparameters.get] raises after the
    split. *)
Definition forest_rejects_pairs (settings : Settings)
    (model_type model_name : string) (X : DataFrame sk) (y : Series sk)
    (d : Dict) : M sk cl (BaseMLModel sk * Metrics * option string) :=
  let clearml_service := ClearMLService_init settings in
  clearml_task_id ← open_run clearml_service model_type model_name (Some d);
  _ ← new_model RandomForest (Some d);
  if_task clearml_task_id (λ t,
    log_training_progress clearml_service t MsgSplit None);;
  if_task clearml_task_id (λ t,
    unit_progress settings t (MsgInit RandomForest d));;
  if_task clearml_task_id (λ t, unit_progress settings t MsgSplitSizes);;
  _ ← lift_sk (sk_split sk X y);
  raise AttributeError.

(** [train_model] on the hyperparameters that the RPC handlers pass, which
    need not be a dictionary.  A false value is replaced by the empty
    dictionary wherever [train_model] and the units read it
    ([hyperparameters or {}]).  A list of pairs updates the defaults as the
    dictionary of its items does, and is otherwise only printed, recorded or
    handed to the tracking service, except by [RandomForest.train]; the
    record and the tracking backend are shown the dictionary of its items.
    Any other value makes the constructor of the unit raise, after the
    tracked run was opened; the tracking backend is then shown the empty
    dictionary. *)
Definition train_model_json (settings : Settings)
    (model_type model_name : string) (X : DataFrame sk) (y : Series sk)
    (hyperparameters : json_value)
    : M sk cl (BaseMLModel sk * Metrics * option string) :=
  match hyperparameters with
  | JObject d => train_model settings model_type model_name X y (Some d)
  | JNull => train_model settings model_type model_name X y None
  | JFalsy => train_model settings model_type model_name X y (Some ∅)
  | JPairs d =>
      match MODEL_REGISTRY !! model_type with
      | Some RandomForest =>
          forest_rejects_pairs settings model_type model_name X y d
      | _ => train_model settings model_type model_name X y (Some d)
      end
  | JRejected value_error =>
      match MODEL_REGISTRY !! model_type with
      | None => raise (ValueError_unknown_type model_type)
      | Some _ =>
          let clearml_service := ClearMLService_init settings in
          _ ← open_run clearml_service model_type model_name None;
          raise (if value_error then ValueError_update else TypeError)
      end
  end.

(** [retrain_model] on the same: only [None] makes it take the recorded
    hyperparameters. *)
Definition retrain_model_json (settings : Settings) (model_name : string)
    (X : DataFrame sk) (y : Series sk) (hyperparameters : json_value)
    : M sk cl (BaseMLModel sk * Metrics * option string) :=
  record ← (λ w, (inr (metadata w !! model_name), w));
  match record with
  | None => raise (FileNotFoundError model_name)
  | Some r =>
      let model_type := rec_type r in
      let hyperparameters :=
        match hyperparameters with
        | JNull => JObject (rec_hyperparameters r)
        | _ => hyperparameters
        end in
      train_model_json settings model_type model_name X y hyperparameters
  end.

(** [TrainModel].  A response of [None] is the empty message. *)
Definition grpc_train (settings : Settings) (request : TrainModelRequest)
    (dir : gmap string (Content pd)) (w : world sk cl)
    : (StatusCode * option TrainModelResponse) * world sk cl :=
  match load_dataset (g_dataset_name request) dir with
  | inl e => ((grpc_handlers library e, None), w)
  | inr dataset =>
      if negb (has_column tb dataset (g_target_column request)) then
        ((INVALID_ARGUMENT, None), w)
      else
        let X := drop_column tb dataset (g_target_column request) in
        let y := select_column tb dataset (g_target_column request) in
        match grpc_hyperparameters (g_hyperparameters_json request) with
        | None => ((INTERNAL, None), w)
        | Some hyperparameters =>
            match
              train_model_json settings (g_model_type request)
                (g_model_name request) X y hyperparameters w
            with
            | (inl e, w') => ((grpc_handlers library e, None), w')
            | (inr (_, metrics, clearml_task_id), w') =>
                ((OK,
                  Some {| gs_model_name := g_model_name request;
                          gs_model_type := g_model_type request;
                          gs_metrics := metrics;
                          gs_clearml_task_id :=
                            default "" clearml_task_id |}), w')
            end
        end
  end.

(** [RetrainModel]; the [model_type] of the request is not read. *)
Definition grpc_retrain (settings : Settings) (request : TrainModelRequest)
    (dir : gmap string (Content pd)) (w : world sk cl)
    : (StatusCode * option TrainModelResponse) * world sk cl :=
  match load_dataset (g_dataset_name request) dir with
  | inl e => ((grpc_handlers library e, None), w)
  | inr dataset =>
      if negb (has_column tb dataset (g_target_column request)) then
        ((INVALID_ARGUMENT, None), w)
      else
        let X := drop_column tb dataset (g_target_column request) in
        let y := select_column tb dataset (g_target_column request) in
        match grpc_hyperparameters (g_hyperparameters_json request) with
        | None => ((INTERNAL, None), w)
        | Some hyperparameters =>
            match
              retrain_model_json settings (g_model_name request) X y
                hyperparameters w
            with
            | (inl e, w') => ((grpc_handlers library e, None), w')
            | (inr (_, metrics, clearml_task_id), w') =>
                let model_type :=
                  match metadata w' !! g_model_name request with
                  | Some model_metadata => rec_type model_metadata
                  | None => "Unknown"
                  end in
                ((OK,
                  Some {| gs_model_name := g_model_name request;
                          gs_model_type := model_type;
                          gs_metrics := metrics;
                          gs_clearml_task_id :=
                            default "" clearml_task_id |}), w')
            end
        end
  end.



End Transports.

(** ** Concrete collaborators for the examples *)

(** ["/".join(parts)] *)
Fixpoint Path_join (parts : list string) : string :=
  match parts with
  | [] => ""
  | [c] => c
  | c :: rest => c +:+ "/" +:+ Path_join rest
  end.

(** A path that starts at the root replaces the directory it is joined
    to. *)
Definition is_absolute (path : string) : bool :=
  match path with
  | String c _ => Ascii.eqb c (Ascii.ascii_of_nat 47)
  | EmptyString => false
  end.

(** A path as pathlib prints it: relative to the directory of the service,
    or from the root. *)
Definition Path_str (path : string) : string :=
  (if is_absolute path then "/" else "") +:+ Path_join (Path_parts path).

(** A file system in which both directories are flat: the location of a file
    is its path as pathlib prints it; the directory itself, the root and
    what [..] leads to are directories of 4096 bytes. *)
#[global] Instance posix : FileSystem := {|
  artifact_file := Path_str;
  dataset_target := λ path,
    match last (Path_parts path) with
    | None => Directory 4096
    | Some c =>
        if String.eqb c ".." then Directory 4096 else File (Path_str path)
    end;
  sidecar_target := λ path, File (Path_str path +:+ ".dvc");
  datasets_dir_name := "datasets"
|}.

(** A scikit-learn stand-in: an estimator is its parameter dictionary,
    [fit] validates [n_estimators], every score is 1. *)
Definition toy_sklearn : Sklearn := {|
  DataFrame := list Z;
  Series := list Z;
  Estimator := Dict;
  Split := list Z * list Z;
  Labels := list Z;
  sk_new := λ _ params, Some params;
  sk_split := λ X y, Some (X, y);
  sk_fit := λ est _,
    match est !! "n_estimators" with
    | Some v => match py_gt v 10 with Some _ => Some est | None => None end
    | None => Some est
    end;
  sk_eval := λ _ _, Some (Qmake 1 1, Qmake 1 1, Qmake 1 1, Qmake 1 1);
  sk_predict := λ _ X, Some X
|}.

(** A tracking backend that counts the calls made to it: every second
    progress report raises, and so do all metric reports and uploads. *)
Definition flaky_clearml : ClearML := {|
  Backend := nat;
  sdk_create_task := λ _ _ _ _ b, (Some "task-1", S b);
  sdk_report_text := λ _ _ _ b, (Nat.even b, S b);
  sdk_report_metrics := λ _ _ _ b, (false, S b);
  sdk_upload_model := λ _ _ _ _ b, (None, S b);
  sdk_close_task := λ _ b, (true, S b)
|}.

Definition tracking_on : Settings := {|
  CLEARML_AVAILABLE := true;
  clearml_api_host := Some "http://clearml:8008";
  clearml_access_key := Some "access";
  clearml_secret_key := Some "secret"
|}.

(** No credentials. *)
Definition tracking_off : Settings := {|
  CLEARML_AVAILABLE := true;
  clearml_api_host := None;
  clearml_access_key := None;
  clearml_secret_key := None
|}.

(** A fresh process over an empty models directory. *)
Definition empty_world : world toy_sklearn flaky_clearml := {|
  files := ∅; metadata := ∅; metadata_file := None;
  backend := (0%nat : Backend flaky_clearml); clock := 0%nat; trace := []
|}.



Definition ten_trees : Dict := <["n_estimators" := HInt 10]> ∅.

(** The state after training a forest of ten trees under the name ["m"]. *)
Definition trained_world : world toy_sklearn flaky_clearml :=
  (train_model (sk := toy_sklearn) tracking_on "RandomForest" "m"
     [1; 2; 3] [0; 1; 0] (Some ten_trees) empty_world).2.

(** The state after training a forest of ten trees under the name
    ["./a"]. *)
Definition aliased_world : world toy_sklearn flaky_clearml :=
  (train_model (sk := toy_sklearn) tracking_on "RandomForest" "./a"
     [1; 2; 3] [0; 1; 0] (Some ten_trees) empty_world).2.

(** A pandas stand-in in which a file holds the frame written to it. *)
Definition toy_pandas : Pandas := {|
  Frame := nat;
  Content := nat;
  to_csv := λ d, d;
  to_json := λ d, d;
  read_csv := λ c, Some c;
  read_json := λ c, Some c;
  frame_shape := λ d, (d, []);
  content_size := λ c, c;
  dvc_version_ok := true;
  dvc_add_ok := λ _, true;
  dvc_push_ok := λ _, true;
  dvc_sidecar := λ _, 0%nat
|}.


Definition empty_dir : gmap string (Content toy_pandas) := ∅.

(** Two uploads, [a.csv.csv] and [a.csv.json]. *)
Definition two_uploads : gmap string (Content toy_pandas) :=
  (save_dataset (pd := toy_pandas) "a.csv.json" 2%nat
     (save_dataset (pd := toy_pandas) "a.csv.csv" 1%nat empty_dir).2).2.

(** One upload, [a.csv.csv]. *)
Definition one_upload : gmap string (Content toy_pandas) :=
  (save_dataset (pd := toy_pandas) "a.csv.csv" 1%nat empty_dir).2.

(** A request whose [n_estimators] is not a number. *)
Definition many_trees : Dict := <["n_estimators" := HStr "many"]> ∅.


(** Every frame has the one column ["y"]; the features and the target are
    read off the number that stands for the frame. *)
Definition toy_tabular : Tabular toy_pandas toy_sklearn := {|
  Records := list Z;
  has_column := λ _ column, String.eqb column "y";
  drop_column := λ (dataset : Frame toy_pandas) _,
    ([Z.of_nat dataset; 2; 3] : DataFrame toy_sklearn);
  select_column := λ _ _, ([0; 1; 0] : Series toy_sklearn);
  frame_of_records := λ data, Some (data : DataFrame toy_sklearn);
  json_loads := λ text,
    if String.eqb text "{}" then Some (JObject ∅)
    else if String.eqb text "null" then Some JNull
    else if String.eqb text "[]" then Some JFalsy
    else if String.eqb text "[1]" then Some (JRejected false)
    else None;
  json_loads_data := λ text,
    if String.eqb text "[]" then Some [] else None
|}.

(** * Properties *)

(** ** Strings *)

Lemma string_length_app (s t : string) :
  String.length (s +:+ t) = (String.length s + String.length t)%nat.
Proof. induction s as [|a s IH]; simpl; [done | by rewrite IH]. Qed.

Lemma string_app_inj_r (s1 s2 t : string) : s1 +:+ t = s2 +:+ t → s1 = s2.
Proof.
  revert s2. induction s1 as [|a s1 IH]; intros [|b s2] H; simpl in H.
  - done.
  - apply (f_equal String.length) in H.
    rewrite !string_length_app in H. simpl in H. lia.
  - apply (f_equal String.length) in H.
    rewrite !string_length_app in H. simpl in H. lia.
  - injection H as -> H. f_equal. by apply IH.
Qed.

Lemma string_app_ne (s t : string) : t ≠ "" → s ≠ s +:+ t.
Proof.
  intros Ht H. apply (f_equal String.length) in H.
  rewrite string_length_app in H. destruct t; [done | simpl in H; lia].
Qed.

Section ServiceProofs.
Context {sk : Sklearn} {cl : ClearML} {fs : FileSystem}.
Implicit Types w : world sk cl.
Local Abbreviation M := (M sk cl).

Lemma same_stores_refl w : same_stores w w.
Proof. by repeat split. Qed.

Lemma same_stores_trans w1 w2 w3 :
  same_stores w1 w2 → same_stores w2 w3 → same_stores w1 w3.
Proof.
  intros (?&?&?&?) (?&?&?&?). repeat split; congruence.
Qed.

Lemma same_stores_sym w1 w2 : same_stores w1 w2 → same_stores w2 w1.
Proof. intros (?&?&?&?). by repeat split. Qed.

Lemma bind_unfold {A B} (m : M A) (k : A → M B) w :
  (m ≫= k) w =
  match m w with
  | (inl e, w') => (inl e, w')
  | (inr a, w') => k a w'
  end.
Proof. reflexivity. Qed.

Lemma bind_ok {A B} (m : M A) (k : A → M B) w a w' :
  m w = (inr a, w') → (m ≫= k) w = k a w'.
Proof. intros H. by rewrite bind_unfold, H. Qed.

Lemma bind_raise {A B} (m : M A) (k : A → M B) w e w' :
  m w = (inl e, w') → (m ≫= k) w = (inl e, w').
Proof. intros H. by rewrite bind_unfold, H. Qed.

Lemma quiet_harmless {A} (m : M A) : quiet m → harmless m.
Proof. intros H w. by destruct (H w) as (a & _ & Hs). Qed.

Lemma harmless_ret {A} (a : A) : harmless (mret a : M A).
Proof. intros w. apply same_stores_refl. Qed.

Lemma harmless_raise {A} e : harmless (raise e : M A).
Proof. intros w. apply same_stores_refl. Qed.

Lemma harmless_bind {A B} (m : M A) (k : A → M B) :
  harmless m → (∀ a, harmless (k a)) → harmless (m ≫= k).
Proof.
  intros Hm Hk w. rewrite bind_unfold. specialize (Hm w).
  destruct (m w) as [[e|a] w1]; simpl in *; [done|].
  eapply same_stores_trans; [exact Hm | apply Hk].
Qed.

Lemma harmless_try_except {A} (m : M A) h :
  harmless m → (∀ e, harmless (h e)) → harmless (try_except m h).
Proof.
  intros Hm Hh w. unfold try_except. specialize (Hm w).
  destruct (m w) as [[e|a] w1]; simpl in *; [|done].
  eapply same_stores_trans; [exact Hm | apply Hh].
Qed.

Lemma harmless_now : harmless (now : M nat).
Proof. intros w. by repeat split. Qed.

Lemma harmless_sdk {A} (op : Backend cl → option A * Backend cl) :
  harmless (sdk op : M A).
Proof.
  intros w. unfold sdk. destruct (op (backend w)) as [[a|] b];
    by repeat split.
Qed.

Lemma harmless_sdk_ (op : Backend cl → bool * Backend cl) :
  harmless (sdk_ op : M unit).
Proof.
  intros w. unfold sdk_. destruct (op (backend w)) as [[|] b];
    by repeat split.
Qed.

Lemma quiet_ret {A} (a : A) : quiet (mret a : M A).
Proof. intros w. exists a. split; [done | apply same_stores_refl]. Qed.

Lemma quiet_bind {A B} (m : M A) (k : A → M B) :
  quiet m → (∀ a, quiet (k a)) → quiet (m ≫= k).
Proof.
  intros Hm Hk w. rewrite bind_unfold. destruct (Hm w) as (a & Ha & Hs).
  destruct (m w) as [r w1]; simpl in *; subst r.
  destruct (Hk a w1) as (b & Hb & Hs'). exists b. split; [done|].
  by eapply same_stores_trans.
Qed.

Lemma quiet_try_except {A} (m : M A) h :
  harmless m → (∀ e, quiet (h e)) → quiet (try_except m h).
Proof.
  intros Hm Hh w. unfold try_except. specialize (Hm w).
  destruct (m w) as [[e|a] w1]; simpl in *.
  - destruct (Hh e w1) as (b & Hb & Hs'). exists b. split; [done|].
    by eapply same_stores_trans.
  - by exists a.
Qed.

Lemma quiet_swallow (m : M unit) : harmless m → quiet (swallow m).
Proof. intros H. apply quiet_try_except; [done|]. intros _. apply quiet_ret. Qed.

Lemma quiet_if_task task_id (f : string → M unit) :
  (∀ t, quiet (f t)) → quiet (if_task task_id f).
Proof.
  intros H. unfold if_task. destruct task_id as [s|]; [|apply quiet_ret].
  destruct (truthy _); [apply H | apply quiet_ret].
Qed.

Lemma quiet_for_each {A} (xs : list A) (body : A → M unit) :
  (∀ x, quiet (body x)) → quiet (for_each xs body).
Proof.
  intros H. induction xs as [|x xs IH]; simpl; [apply quiet_ret|].
  apply quiet_bind; [apply H | by intros _].
Qed.

(** Running a quiet step in front of a continuation. *)
Lemma quiet_step {A B} (m : M A) (k : A → M B) w :
  quiet m → ∃ a w1, (m ≫= k) w = k a w1 ∧ same_stores w w1.
Proof.
  intros Hm. destruct (Hm w) as (a & Ha & Hs). rewrite bind_unfold.
  destruct (m w) as [r w1]; simpl in *; subst r. by exists a, w1.
Qed.

(** *** The tracking service is quiet *)

Lemma quiet_log_training_progress self task_id message iteration :
  quiet (log_training_progress self task_id message iteration : M unit).
Proof.
  unfold log_training_progress. destruct (negb _); [apply quiet_ret|].
  apply quiet_swallow, harmless_sdk_.
Qed.

Lemma quiet_log_metrics self task_id metrics iteration :
  quiet (log_metrics self task_id metrics iteration : M unit).
Proof.
  unfold log_metrics. destruct (negb _); [apply quiet_ret|].
  apply quiet_swallow, harmless_sdk_.
Qed.

Lemma quiet_create_training_task self project_name task_name model_type hp :
  quiet (create_training_task self project_name task_name model_type hp
         : M (option string)).
Proof.
  unfold create_training_task. destruct (negb _); [apply quiet_ret|].
  apply quiet_try_except; [|intros _; apply quiet_ret].
  apply harmless_bind; [apply harmless_sdk | intros; apply harmless_ret].
Qed.

Lemma quiet_upload_model self task_id path model_name meta :
  quiet (upload_model self task_id path model_name meta : M (option string)).
Proof.
  unfold upload_model. destruct (negb _); [apply quiet_ret|].
  apply quiet_try_except; [|intros _; apply quiet_ret].
  apply harmless_bind; [apply harmless_sdk | intros; apply harmless_ret].
Qed.

Lemma quiet_unit_progress settings task_id message :
  quiet (unit_progress settings task_id message : M unit).
Proof.
  apply quiet_swallow, quiet_harmless, quiet_log_training_progress.
Qed.

Lemma harmless_forest_progress settings task_id n_estimators :
  harmless (forest_progress settings task_id n_estimators : M unit).
Proof.
  unfold forest_progress. destruct (as_int _); [|apply harmless_raise].
  apply quiet_harmless, quiet_for_each. intros i.
  destruct (Z.eqb i 0); [apply quiet_log_training_progress|].
  destruct (Z.ltb i z); [apply quiet_log_training_progress | apply quiet_ret].
Qed.

Lemma quiet_open_run self model_type model_name hp :
  quiet (open_run self model_type model_name hp : M (option string)).
Proof.
  unfold open_run. destruct (enabled self); [|apply quiet_ret].
  apply quiet_bind.
  - apply quiet_try_except; [|intros _; apply quiet_ret].
    apply harmless_bind; [apply harmless_now|]. intros stamp.
    apply quiet_harmless, quiet_create_training_task.
  - intros tid. apply quiet_bind; [|intros _; apply quiet_ret].
    apply quiet_swallow, quiet_harmless, quiet_if_task. intros t.
    apply quiet_log_training_progress.
Qed.

Lemma open_run_disabled self model_type model_name hp w :
  enabled self = false →
  open_run self model_type model_name hp w = (inr None, w).
Proof. intros H. unfold open_run. by rewrite H. Qed.

Lemma quiet_close_run self task_id model_type model_name hp metrics :
  quiet (close_run self task_id model_type model_name hp metrics : M unit).
Proof.
  unfold close_run. apply quiet_swallow, quiet_harmless.
  apply quiet_bind; [apply quiet_log_metrics | intros _].
  apply quiet_bind; [apply quiet_log_training_progress | intros _].
  apply quiet_bind; [apply quiet_upload_model | intros _].
  apply quiet_swallow, harmless_sdk_.
Qed.


Create HintDb quiet.

#[local] Hint Resolve quiet_ret quiet_log_training_progress quiet_log_metrics
  quiet_create_training_task quiet_upload_model quiet_unit_progress
  quiet_open_run quiet_close_run same_stores_refl : quiet.

Ltac solve_quiet :=
  solve [ eauto with quiet
        | apply quiet_if_task; intros ?; eauto with quiet ].

(** Run the quiet computation at the head of the goal's program, keeping
    one hypothesis that relates the initial state to the current one. *)
Ltac skip_quiet :=
  match goal with
  | |- context [ (?m ≫= ?k) ?w ] =>
      let a := fresh "a" in
      let w1 := fresh "w" in
      let E := fresh "E" in
      let Hs := fresh "Hs" in
      destruct (quiet_step m k w) as (a & w1 & E & Hs);
      [ solve_quiet
      | rewrite E; clear E;
        try match goal with
            | H : same_stores ?w0 w |- _ =>
                apply (same_stores_trans _ _ _ H) in Hs; clear H
            end ]
  end.

Ltac done_here := eexists; split; [reflexivity | first [assumption | apply same_stores_refl]].

(** The end of both [train] methods: fit, message, evaluation. *)
Ltac fit_and_evaluate self sp :=
  unfold model_or_raise; rewrite bind_unfold;
  destruct (model self) as [?est|]; simpl; [|done_here];
  rewrite bind_unfold;
  match goal with
  | |- context [ sk_fit ?sk ?est sp ] =>
      destruct (sk_fit sk est sp) as [?est'|]; simpl; [|done_here]
  end;
  skip_quiet; rewrite !bind_unfold; simpl;
  match goal with
  | |- context [ sk_eval ?sk ?est sp ] =>
      destruct (sk_eval sk est sp) as [?ms|]; simpl; done_here
  end.

Lemma train_unit_run settings self X y task_id w :
  ∃ w', BaseMLModel_train settings self X y task_id w
        = (fit_outcome self X y (truthy task_id), w')
        ∧ same_stores w w'.
Proof.
  unfold BaseMLModel_train, fit_outcome, guard_raises.
  destruct (cls self).
  - unfold LogisticRegression_train.
    do 2 skip_quiet.
    destruct (sk_split sk X y) as [sp|]; simpl; [|done_here].
    rewrite bind_unfold; simpl. skip_quiet.
    fit_and_evaluate self sp.
  - unfold RandomForest_train.
    do 2 skip_quiet.
    destruct (sk_split sk X y) as [sp|]; simpl; [|done_here].
    rewrite bind_unfold; simpl.
    set (n := default (HInt 100) (hyperparameters self !! "n_estimators")).
    unfold forest_announce. rewrite bind_unfold.
    destruct (truthy task_id) eqn:Ht; simpl.
    + destruct (py_gt n 10) as [announce|] eqn:Hgt; simpl; [|done_here].
      assert (quiet (if_task task_id (λ t : string,
                if announce then swallow (forest_progress settings t n)
                else mret tt) : M unit)) as Hq.
      { apply quiet_if_task. intros t. destruct announce; [|apply quiet_ret].
        apply quiet_swallow, harmless_forest_progress. }
      match goal with
      | |- context [ (?m ≫= ?k) ?w ] =>
          destruct (quiet_step m k w Hq) as (u & w2 & E & Hs1)
      end.
      rewrite E; clear E.
      apply (same_stores_trans _ _ _ Hs0) in Hs1; clear Hs0.
      fit_and_evaluate self sp.
    + skip_quiet. fit_and_evaluate self sp.
Qed.

(** [model_class(hyperparameters=hp)] touches nothing but scikit-learn. *)
Lemma new_model_run c hp w :
  new_model c hp w =
  (match
     sk_new sk c (_get_model_params (BaseMLModel_init c hp : BaseMLModel sk))
   with
   | Some est => inr (set_model est (BaseMLModel_init c hp))
   | None => inl LibraryError
   end, w).
Proof.
  unfold new_model. rewrite bind_unfold.
  by destruct (sk_new sk c _).
Qed.


Lemma fit_outcome_unit (self : BaseMLModel sk) X y tracked m metrics :
  fit_outcome self X y tracked = inr (m, metrics) →
  is_trained m = true ∧ hyperparameters m = hyperparameters self
  ∧ cls m = cls self.
Proof.
  unfold fit_outcome. intros H.
  destruct (sk_split sk X y); [|done].
  destruct (guard_raises _ _ _); [done|].
  destruct (model self); [|done].
  destruct (sk_fit sk _ _); [|done].
  destruct (sk_eval sk _ _); [|done].
  by injection H as <- _.
Qed.

Lemma train_outcome_unit c hp X y tracked (m : BaseMLModel sk) metrics :
  train_outcome c hp X y tracked = inr (m, metrics) →
  is_trained m = true ∧ hyperparameters m = or_empty hp ∧ cls m = c.
Proof.
  unfold train_outcome. destruct (sk_new sk c _); [|done].
  intros H. by apply fit_outcome_unit in H.
Qed.

Lemma open_run_run self model_type model_name hp w :
  ∃ task_id w1,
    open_run self model_type model_name hp w = (inr task_id, w1)
    ∧ same_stores w w1
    ∧ (enabled self = false → task_id = None).
Proof.
  destruct (enabled self) eqn:He.
  - destruct (quiet_open_run self model_type model_name hp w)
      as (tid & Ht & Hs).
    exists tid, (open_run self model_type model_name hp w).2.
    split; [|done]. rewrite <- Ht. by destruct (open_run _ _ _ _ _).
  - exists None, w. rewrite open_run_disabled by done.
    split; [done|]. split; [apply same_stores_refl | done].
Qed.

Lemma train_model_run settings model_type model_name X y hp c w :
  MODEL_REGISTRY !! model_type = Some c →
  ∃ task_id w',
    (enabled (ClearMLService_init settings) = false → task_id = None)
    ∧ match train_outcome c hp X y (truthy task_id) with
      | inl e =>
          train_model settings model_type model_name X y hp w = (inl e, w')
          ∧ same_stores w w'
      | inr (m, metrics) =>
          ∃ created_at,
            train_model settings model_type model_name X y hp w
            = (inr (m, metrics, task_id), w')
            ∧ files w' = <[model_path model_name := m]> (files w)
            ∧ metadata w' =
                <[model_name :=
                    new_record model_type created_at metrics hp task_id]>
                  (metadata w)
            ∧ metadata_file w' = Some (metadata w')
            ∧ trace w' =
                (trace w ++ [EvArtifactWritten (model_path model_name);
                             EvRecordSet model_name; EvMetadataSaved])%list
      end.
Proof.
  intros Hreg. unfold train_model. rewrite Hreg.
  destruct (open_run_run (ClearMLService_init settings) model_type
              model_name hp w) as (tid & w1 & E1 & Hs & Hoff).
  exists tid. rewrite (bind_ok _ _ _ _ _ E1).
  unfold train_outcome. rewrite bind_unfold, new_model_run.
  destruct (sk_new sk c _) as [est|]; [|by eexists].
  skip_quiet.
  destruct (train_unit_run settings (set_model est (BaseMLModel_init c hp))
              X y tid w0) as (w2 & E2 & Hs2).
  rewrite bind_unfold, E2.
  apply (same_stores_trans _ _ _ Hs0) in Hs2; clear Hs0.
  destruct (fit_outcome _ X y (truthy tid)) as [e|[m metrics]] eqn:Hfit;
    [by eexists|].
  apply fit_outcome_unit in Hfit as (Htrained & _ & _).
  skip_quiet.
  unfold BaseMLModel_save. rewrite Htrained; simpl.
  rewrite bind_unfold; simpl.
  skip_quiet.
  eexists; split; [exact Hoff|]. exists (clock w4).
  split; [reflexivity|].
  destruct Hs as (Hf & Hm & Hmf & Ht), Hs0 as (Hf' & Hm' & Hmf' & Ht').
  simpl in *. rewrite <- Hf', <- Hm', <- Ht', Hf, Hm, Ht.
  repeat split. by rewrite <- !app_assoc.
Qed.


(** The exceptions that construction and training can raise. *)
Lemma train_outcome_error c hp (X : DataFrame sk) y tracked e :
  train_outcome c hp X y tracked = inl e →
  e = LibraryError ∨ e = TypeError ∨ e = ValueError_not_initialised.
Proof.
  unfold train_outcome, fit_outcome.
  destruct (sk_new sk c _); [|intros [= <-]; by left].
  destruct (sk_split sk X y); [|intros [= <-]; by left].
  destruct (guard_raises _ _ _); [intros [= <-]; right; by left|]. simpl.
  destruct (sk_fit sk _ _); [|intros [= <-]; by left].
  destruct (sk_eval sk _ _); [done | intros [= <-]; by left].
Qed.

(** A registered type: [train_model] either raises one of the exceptions of
    construction and training, leaving the stores alone, or returns. *)
Lemma train_model_result settings model_type model_name X y hp c w :
  MODEL_REGISTRY !! model_type = Some c →
  (∃ e, (train_model settings model_type model_name X y hp w).1 = inl e
        ∧ (e = LibraryError ∨ e = TypeError ∨ e = ValueError_not_initialised)
        ∧ same_stores w (train_model settings model_type model_name X y hp w).2)
  ∨ (∃ r, (train_model settings model_type model_name X y hp w).1 = inr r).
Proof.
  intros Hreg.
  destruct (train_model_run settings model_type model_name X y hp c w Hreg)
    as (tid & w' & _ & H).
  destruct (train_outcome c hp X y (truthy tid)) as [e|[m metrics]] eqn:Ho.
  - destruct H as [E Hs]. left. exists e. rewrite E. simpl.
    split; [done|]. split; [|done]. by eapply train_outcome_error.
  - destruct H as (t & E & _). right. rewrite E. by eexists.
Qed.

(** What a successful [train_model] has done. *)
Lemma train_model_success settings model_type model_name X y hp w
    m metrics task_id w' :
  train_model settings model_type model_name X y hp w
  = (inr (m, metrics, task_id), w') →
  ∃ c created_at,
    MODEL_REGISTRY !! model_type = Some c
    ∧ train_outcome c hp X y (truthy task_id) = inr (m, metrics)
    ∧ (enabled (ClearMLService_init settings) = false → task_id = None)
    ∧ files w' = <[model_path model_name := m]> (files w)
    ∧ metadata w' =
        <[model_name := new_record model_type created_at metrics hp task_id]>
          (metadata w)
    ∧ metadata_file w' = Some (metadata w')
    ∧ trace w' =
        (trace w ++ [EvArtifactWritten (model_path model_name);
                     EvRecordSet model_name; EvMetadataSaved])%list.
Proof.
  intros E.
  destruct (MODEL_REGISTRY !! model_type) as [c|] eqn:Hreg.
  2:{ unfold train_model in E. by rewrite Hreg in E. }
  destruct (train_model_run settings model_type model_name X y hp c w Hreg)
    as (tid & w1 & Hoff & H).
  destruct (train_outcome c hp X y (truthy tid)) as [e|[m1 metrics1]] eqn:Ho.
  - destruct H as [E1 _]. rewrite E1 in E. discriminate.
  - destruct H as (t & E1 & H). rewrite E1 in E.
    injection E as <- <- <- <-. by exists c, t.
Qed.

(** A [train_model] that raises has left both stores as they were. *)
Lemma train_model_failure settings model_type model_name X y hp w e w' :
  train_model settings model_type model_name X y hp w = (inl e, w') →
  same_stores w w'.
Proof.
  intros E.
  destruct (MODEL_REGISTRY !! model_type) as [c|] eqn:Hreg.
  2:{ unfold train_model in E. rewrite Hreg in E. injection E as _ <-.
      apply same_stores_refl. }
  destruct (train_model_run settings model_type model_name X y hp c w Hreg)
    as (tid & w1 & Hoff & H).
  destruct (train_outcome c hp X y (truthy tid)) as [e1|[m1 metrics1]].
  - destruct H as [E1 Hs]. rewrite E1 in E. by injection E as _ <-.
  - destruct H as (t & E1 & _). rewrite E1 in E. discriminate.
Qed.

(** The estimator of a trained unit was constructed from the merged
    parameters. *)
Lemma train_outcome_built c hp (X : DataFrame sk) y tracked m metrics :
  train_outcome c hp X y tracked = inr (m, metrics) →
  ∃ est,
    sk_new sk c (dict_update (get_default_hyperparameters c) (or_empty hp))
    = Some est.
Proof.
  unfold train_outcome, _get_model_params. simpl.
  destruct (sk_new sk c _) as [est|]; [|done]. by exists est.
Qed.

(** ** The claims about the orchestrator *)

(** C6.  [train_model] raises the unknown-type [ValueError] if and only if
    the requested type is not a key of [MODEL_REGISTRY]; in that case it
    returns at once, with the whole process state (metadata store, artifact
    store, tracking backend, trace of effects) exactly as it was. *)
Theorem C6_unknown_capability settings model_type model_name X y hp w :
  ((∃ t, (train_model settings model_type model_name X y hp w).1
         = inl (ValueError_unknown_type t))
   ↔ MODEL_REGISTRY !! model_type = None)
  ∧ (MODEL_REGISTRY !! model_type = None →
     train_model settings model_type model_name X y hp w
     = (inl (ValueError_unknown_type model_type), w)).
Proof.
  assert (MODEL_REGISTRY !! model_type = None →
          train_model settings model_type model_name X y hp w
          = (inl (ValueError_unknown_type model_type), w)) as Hnone.
  { intros Hreg. unfold train_model. by rewrite Hreg. }
  split; [|exact Hnone]. split.
  - intros [t Ht].
    destruct (MODEL_REGISTRY !! model_type) as [c|] eqn:Hreg; [|done].
    destruct (train_model_result settings model_type model_name X y hp c w
                Hreg) as [(e & He & Hk & _)|[r Hr]].
    + rewrite He in Ht. injection Ht as ->.
      destruct Hk as [?|[?|?]]; discriminate.
    + rewrite Hr in Ht. discriminate.
  - intros Hreg. exists model_type. by rewrite Hnone.
Qed.


(** C8.  For a registered type, the scikit-learn estimator is constructed
    with the class defaults overridden pointwise by the caller's
    hyperparameters: a key supplied by the caller takes the caller's value,
    every other key keeps its default. *)
Theorem C8_estimator_parameters model_type c (hp : option Dict) w :
  MODEL_REGISTRY !! model_type = Some c →
  let params := _get_model_params (BaseMLModel_init c hp : BaseMLModel sk) in
  (∀ k, params !! k =
        match or_empty hp !! k with
        | Some v => Some v
        | None => get_default_hyperparameters c !! k
        end)
  ∧ new_model c hp w =
      (match sk_new sk c params with
       | Some est =>
           inr {| cls := c; hyperparameters := or_empty hp;
                  model := Some est; is_trained := false |}
       | None => inl LibraryError
       end, w).
Proof.
  intros _ params. split.
  - intros k. unfold params, _get_model_params, dict_update. simpl.
    rewrite lookup_union. by destruct (or_empty hp !! k), (_ !! k).
  - rewrite new_model_run. fold params. by destruct (sk_new sk c params).
Qed.

(** C3 (as amended).  After a successful [train_model] the record stored
    under the model name carries, as [hyperparameters], the mapping the
    caller supplied (the empty mapping when none was supplied), and so does
    the returned unit; the defaults are merged in only for the construction
    of the estimator. *)
Theorem C3_record_hyperparameters settings model_type model_name X y hp w
    m metrics task_id w' :
  train_model settings model_type model_name X y hp w
  = (inr (m, metrics, task_id), w') →
  ∃ r c est,
    metadata w' !! model_name = Some r
    ∧ rec_hyperparameters r = or_empty hp
    ∧ hyperparameters m = or_empty hp
    ∧ MODEL_REGISTRY !! model_type = Some c
    ∧ sk_new sk c (dict_update (get_default_hyperparameters c) (or_empty hp))
      = Some est.
Proof.
  intros E.
  apply train_model_success in E
    as (c & t & Hreg & Ho & _ & _ & Hm & _ & _).
  destruct (train_outcome_built _ _ _ _ _ _ _ Ho) as [est Hest].
  apply train_outcome_unit in Ho as (_ & Hhp & _).
  exists (new_record model_type t metrics hp task_id), c, est.
  rewrite Hm, lookup_insert_eq. by repeat split.
Qed.


(** *** Runs of [delete_model] and [retrain_model] *)

Lemma delete_model_missing model_name w :
  files w !! model_path model_name = None →
  delete_model model_name w = (inl (FileNotFoundError model_name), w).
Proof.
  intros H. unfold delete_model, exists_artifact. rewrite bind_unfold.
  rewrite H. by rewrite bool_decide_eq_false_2 by (by intros [??]).
Qed.

Lemma delete_model_found model_name w :
  is_Some (files w !! model_path model_name) →
  ∃ w',
    delete_model model_name w = (inr true, w')
    ∧ files w' = delete (model_path model_name) (files w)
    ∧ metadata w' = delete model_name (metadata w)
    ∧ backend w' = backend w
    ∧ trace w' =
        (trace w ++ EvArtifactRemoved (model_path model_name) ::
           if bool_decide (is_Some (metadata w !! model_name))
           then [EvRecordDeleted model_name; EvMetadataSaved] else [])%list
    ∧ metadata_file w' =
        if bool_decide (is_Some (metadata w !! model_name))
        then Some (delete model_name (metadata w)) else metadata_file w.
Proof.
  intros H. unfold delete_model, exists_artifact. rewrite bind_unfold.
  rewrite bool_decide_eq_true_2 by done. simpl.
  rewrite bind_unfold. simpl. rewrite bind_unfold. simpl.
  destruct (bool_decide (is_Some (metadata w !! model_name))) eqn:Hm;
    rewrite ?bind_unfold; simpl.
  - eexists. split; [reflexivity|]. simpl. repeat split.
    by rewrite <- !app_assoc.
  - eexists. split; [reflexivity|]. simpl. repeat split.
    apply bool_decide_eq_false in Hm.
    symmetry. apply delete_id. by apply eq_None_not_Some.
Qed.

Lemma retrain_model_run settings model_name X y hp w :
  retrain_model settings model_name X y hp w =
  match metadata w !! model_name with
  | None => (inl (FileNotFoundError model_name), w)
  | Some r =>
      train_model settings (rec_type r) model_name X y
        (Some match hp with
              | None => rec_hyperparameters r
              | Some h => h
              end) w
  end.
Proof.
  unfold retrain_model. rewrite bind_unfold. simpl.
  destruct (metadata w !! model_name) as [r|]; [|done]. by destruct hp.
Qed.

(** *** The lockstep invariant *)

Lemma lockstep_same_stores w w' :
  same_stores w w' → in_lockstep w → in_lockstep w'.
Proof.
  intros (Hf & Hm & _) H. unfold in_lockstep. by rewrite <- Hf, <- Hm.
Qed.

Lemma lockstep_insert w w' model_name (m : BaseMLModel sk) r :
  files w' = <[model_path model_name := m]> (files w) →
  metadata w' = <[model_name := r]> (metadata w) →
  in_lockstep w → in_lockstep w'.
Proof.
  intros Hf Hm [Hrec Hart]. split.
  - intros name. rewrite Hf, Hm. intros Hs.
    destruct (decide (model_path model_name = model_path name)) as [<-|Hp];
      [by rewrite lookup_insert_eq|].
    rewrite lookup_insert_ne by done. apply Hrec.
    rewrite lookup_insert_ne in Hs; [done|]. by intros ->.
  - intros path. rewrite Hf, Hm. intros Hs.
    destruct (decide (model_path model_name = path)) as [<-|Hp].
    + exists model_name. by rewrite lookup_insert_eq.
    + rewrite lookup_insert_ne in Hs by done.
      destruct (Hart path Hs) as (name & Hname & Hr).
      exists name. split; [done|].
      rewrite lookup_insert_ne; [done|]. by intros ->.
Qed.

Lemma lockstep_delete w w' model_name :
  files w' = delete (model_path model_name) (files w) →
  metadata w' = delete model_name (metadata w) →
  unshared w model_name →
  in_lockstep w → in_lockstep w'.
Proof.
  intros Hf Hm Hun [Hrec Hart]. split.
  - intros name. rewrite Hf, Hm. intros Hs.
    apply lookup_delete_is_Some in Hs as [Hne Hs].
    apply lookup_delete_is_Some. split; [|by apply Hrec].
    intros E. apply Hne. symmetry. by apply Hun.
  - intros path. rewrite Hf, Hm. intros Hs.
    apply lookup_delete_is_Some in Hs as [Hne Hs].
    destruct (Hart path Hs) as (name & Hname & Hr).
    exists name. split; [done|].
    apply lookup_delete_is_Some. split; [|done]. by intros ->.
Qed.

Lemma train_model_lockstep settings model_type model_name X y hp w :
  in_lockstep w →
  let r := train_model settings model_type model_name X y hp w in
  in_lockstep r.2
  ∧ (is_ok r.1 = false ∧ trace r.2 = trace w
     ∨ is_ok r.1 = true
       ∧ trace r.2 =
           (trace w ++ [EvArtifactWritten (model_path model_name);
                        EvRecordSet model_name; EvMetadataSaved])%list).
Proof.
  intros Hinv r.
  destruct (train_model settings model_type model_name X y hp w)
    as [[e|[[m metrics] tid]] w'] eqn:E; subst r; simpl.
  - apply train_model_failure in E. split.
    + by eapply lockstep_same_stores.
    + left. split; [done|]. symmetry. apply E.
  - apply train_model_success in E
      as (c & t & _ & _ & _ & Hf & Hm & _ & Ht).
    split; [by eapply lockstep_insert | by right].
Qed.


Lemma train_model_never_not_found settings model_type model_name X y hp w n :
  (train_model settings model_type model_name X y hp w).1
  ≠ inl (FileNotFoundError n).
Proof.
  intros E.
  destruct (MODEL_REGISTRY !! model_type) as [c|] eqn:Hreg.
  - destruct (train_model_result settings model_type model_name X y hp c w
                Hreg) as [(e & He & Hk & _)|[r Hr]].
    + rewrite He in E. injection E as ->.
      destruct Hk as [?|[?|?]]; discriminate.
    + rewrite Hr in E. discriminate.
  - unfold train_model in E. rewrite Hreg in E. discriminate.
Qed.

(** C1 (as amended).  Starting from a state in lockstep (every record has
    its artifact file, every artifact file has a record), train and retrain
    end in such a state, whether they return or raise; so does delete,
    provided that no record other than that of the deleted name points at
    the same artifact file.  A call that raises has had no effect on the
    stores; a train or retrain that returns has written the artifact and
    then the record; a delete that returns has removed the artifact and then
    the record of the name, if there is one, as there is under the
    proviso. *)
Theorem C1_lockstep settings w :
  in_lockstep w →
  (∀ model_type model_name X y hp,
     let r := train_model settings model_type model_name X y hp w in
     in_lockstep r.2
     ∧ (is_ok r.1 = false ∧ trace r.2 = trace w
        ∨ is_ok r.1 = true
          ∧ trace r.2 =
              (trace w ++ [EvArtifactWritten (model_path model_name);
                           EvRecordSet model_name; EvMetadataSaved])%list))
  ∧ (∀ model_name X y hp,
       let r := retrain_model settings model_name X y hp w in
       in_lockstep r.2
       ∧ (is_ok r.1 = false ∧ trace r.2 = trace w
          ∨ is_ok r.1 = true
            ∧ trace r.2 =
                (trace w ++ [EvArtifactWritten (model_path model_name);
                             EvRecordSet model_name; EvMetadataSaved])%list))
  ∧ (∀ model_name,
       let r := delete_model model_name w in
       (unshared w model_name → in_lockstep r.2)
       ∧ (is_ok r.1 = false ∧ trace r.2 = trace w
          ∨ is_ok r.1 = true
            ∧ trace r.2 =
                (trace w ++ EvArtifactRemoved (model_path model_name) ::
                   if bool_decide (is_Some (metadata w !! model_name))
                   then [EvRecordDeleted model_name; EvMetadataSaved]
                   else [])%list)
       ∧ (unshared w model_name → is_ok r.1 = true →
          is_Some (metadata w !! model_name))).
Proof.
  intros Hinv. split; [|split].
  - intros. by apply train_model_lockstep.
  - intros model_name X y hp. rewrite retrain_model_run.
    destruct (metadata w !! model_name) as [r|].
    + by apply train_model_lockstep.
    + simpl. split; [done | by left].
  - intros model_name.
    destruct (files w !! model_path model_name) as [u|] eqn:Hf.
    + destruct (delete_model_found model_name w) as
        (w' & E & Hf' & Hm' & _ & Ht & _); [by rewrite Hf|].
      rewrite E. simpl. split; [intros Hun; by eapply lockstep_delete|].
      split; [right; by rewrite Ht|]. intros Hun _.
      destruct Hinv as [_ Hart].
      destruct (Hart (model_path model_name)) as (name & Hname & Hr);
        [by rewrite Hf|].
      by rewrite <- (Hun name Hr Hname).
    + rewrite delete_model_missing by done. simpl.
      split; [done|]. split; [by left | done].
Qed.


(** C5.  [retrain_model] raises [FileNotFoundError] exactly when the
    metadata store has no record for the name.  Otherwise it is
    [train_model] on the recorded type and on the caller's hyperparameters,
    or on the recorded ones when the caller passes [None]; a retrain that
    returns has overwritten the artifact and the record accordingly. *)
Theorem C5_retrain settings model_name X y hp w :
  ((∃ n, (retrain_model settings model_name X y hp w).1
         = inl (FileNotFoundError n))
   ↔ metadata w !! model_name = None)
  ∧ (∀ r, metadata w !! model_name = Some r →
       let hp' := match hp with
                  | None => rec_hyperparameters r
                  | Some h => h
                  end in
       retrain_model settings model_name X y hp w
       = train_model settings (rec_type r) model_name X y (Some hp') w
       ∧ ∀ m metrics task_id w',
           retrain_model settings model_name X y hp w
           = (inr (m, metrics, task_id), w') →
           ∃ r' c,
             metadata w' !! model_name = Some r'
             ∧ rec_type r' = rec_type r
             ∧ rec_hyperparameters r' = hp'
             ∧ MODEL_REGISTRY !! rec_type r = Some c
             ∧ cls m = c
             ∧ hyperparameters m = hp'
             ∧ files w' !! model_path model_name = Some m).
Proof.
  split.
  - rewrite retrain_model_run. split.
    + intros [n Hn]. destruct (metadata w !! model_name) as [r|]; [|done].
      by apply train_model_never_not_found in Hn.
    + intros ->. by exists model_name.
  - intros r Hr hp'. rewrite retrain_model_run, Hr. fold hp'.
    split; [done|]. intros m metrics tid w' E.
    apply train_model_success in E
      as (c & t & Hreg & Ho & _ & Hf & Hm & _ & _).
    apply train_outcome_unit in Ho as (_ & Hhp & Hc).
    exists (new_record (rec_type r) t metrics (Some hp') tid), c.
    rewrite Hm, Hf, !lookup_insert_eq. by repeat split.
Qed.


(** *** Prediction and the [is_trained] flag *)

Lemma predict_run model_name rows w :
  predict model_name rows w =
  (match files w !! model_path model_name with
   | None => inl (FileNotFoundError model_name)
   | Some u =>
       if negb (is_trained u) then inl ValueError_not_trained
       else
         match model u with
         | None => inl ValueError_not_initialised
         | Some est =>
             match sk_predict sk est rows with
             | Some labels => inr labels
             | None => inl LibraryError
             end
         end
   end, w).
Proof.
  unfold predict, load_model, exists_artifact, BaseMLModel_load.
  rewrite !bind_unfold. simpl.
  destruct (files w !! model_path model_name) as [u|] eqn:Hf; simpl.
  - rewrite Hf. unfold BaseMLModel_predict, model_or_raise.
    destruct (is_trained u); simpl; [|reflexivity].
    rewrite bind_unfold. destruct (model u) as [est|]; simpl; [|reflexivity].
    by destruct (sk_predict sk est rows).
  - reflexivity.
Qed.

Lemma all_trained_serve settings (rq : request sk) w :
  all_trained w → all_trained (serve settings rq w).
Proof.
  intros Hinv.
  assert (∀ model_type model_name X y hp,
            all_trained
              (train_model settings model_type model_name X y hp w).2)
    as Htrain.
  { intros model_type model_name X y hp.
    destruct (train_model settings model_type model_name X y hp w)
      as [[e|[[m metrics] tid]] w'] eqn:E; simpl.
    - apply train_model_failure in E as (Hf & _).
      intros path u. rewrite <- Hf. apply Hinv.
    - apply train_model_success in E
        as (c & t & _ & Ho & _ & Hf & _).
      apply train_outcome_unit in Ho as (Htr & _).
      intros path u. rewrite Hf.
      destruct (decide (path = model_path model_name)) as [->|Hne].
      + rewrite lookup_insert_eq. by intros [= <-].
      + rewrite lookup_insert_ne by done. apply Hinv. }
  destruct rq as [model_type model_name X y hp|model_name X y hp
                  |model_name|model_name rows]; simpl.
  - apply Htrain.
  - rewrite retrain_model_run.
    destruct (metadata w !! model_name); [apply Htrain | exact Hinv].
  - destruct (files w !! model_path model_name) as [u|] eqn:Hf.
    + destruct (delete_model_found model_name w) as (w' & E & Hf' & _);
        [by rewrite Hf|].
      rewrite E. simpl. intros path u'. rewrite Hf'.
      intros H. apply lookup_delete_Some in H as [_ H]. by eapply Hinv.
    + by rewrite delete_model_missing.
  - by rewrite predict_run.
Qed.

Lemma reachable_all_trained w : reachable w → all_trained w.
Proof.
  induction 1 as [w Hempty|settings rq w _ IH].
  - intros path u. by rewrite Hempty, lookup_empty.
  - by apply all_trained_serve.
Qed.

(** C9.  [save] refuses a unit whose [is_trained] flag is false, and
    [predict] raises the not-trained [ValueError] on such a unit; but in any
    state reached from an empty models directory by train, retrain, delete
    and predict requests, every stored unit has the flag set, so that
    [predict] never raises that error. *)
Theorem C9_not_trained_unreachable :
  (∀ (u : BaseMLModel sk) path w,
     is_trained u = false →
     BaseMLModel_save u path w = (inl ValueError_not_trained, w))
  ∧ (∀ w model_name rows u,
       files w !! model_path model_name = Some u →
       is_trained u = false →
       predict model_name rows w = (inl ValueError_not_trained, w))
  ∧ (∀ w,
       reachable w →
       (∀ model_name u,
          files w !! model_path model_name = Some u → is_trained u = true)
       ∧ (∀ model_name rows,
            (predict model_name rows w).1 ≠ inl ValueError_not_trained)).
Proof.
  split; [|split].
  - intros u path w Hu. unfold BaseMLModel_save. by rewrite Hu.
  - intros w model_name rows u Hf Hu. by rewrite predict_run, Hf, Hu.
  - intros w Hw. apply reachable_all_trained in Hw. split.
    + intros model_name u. apply Hw.
    + intros model_name rows. rewrite predict_run. simpl.
      destruct (files w !! model_path model_name) as [u|] eqn:Hf; [|done].
      rewrite (Hw _ _ Hf). simpl.
      destruct (model u) as [est|]; [|done].
      by destruct (sk_predict sk est rows).
Qed.


(** *** Tracking does not change the outcome *)

(** With an estimator that validates [n_estimators], tracking a run changes
    neither whether construction and training succeed nor what they
    return. *)
Lemma train_outcome_tracking c hp (X : DataFrame sk) y tracked :
  validates_n_estimators sk →
  match train_outcome c hp X y tracked, train_outcome c hp X y false with
  | inr r, inr r' => r = r'
  | inl _, inl _ => True
  | _, _ => False
  end.
Proof.
  intros Hval. destruct tracked.
  2:{ by destruct (train_outcome c hp X y false). }
  unfold train_outcome.
  destruct (sk_new sk c _) as [est|] eqn:Hnew; [|done].
  unfold fit_outcome. destruct (sk_split sk X y) as [sp|]; [|done].
  simpl. destruct c; simpl.
  { destruct (sk_fit sk est sp) as [est'|]; [|exact I].
    destruct (sk_eval sk est' sp); [reflexivity | exact I]. }
  case_bool_decide as Hgt.
  - destruct (or_empty hp !! "n_estimators") as [v|] eqn:Hv; [|done].
    simpl in Hgt.
    rewrite (Hval _ est sp v Hnew); [done| |done].
    unfold _get_model_params, dict_update. simpl.
    by apply lookup_union_Some_l.
  - destruct (sk_fit sk est sp) as [est'|]; [|exact I].
    destruct (sk_eval sk est' sp); [reflexivity | exact I].
Qed.

(** With tracking disabled the ClearML SDK is never called. *)
Lemma train_model_disabled settings model_type model_name X y hp w :
  enabled (ClearMLService_init settings) = false →
  backend (train_model settings model_type model_name X y hp w).2 = backend w.
Proof.
  intros Hoff. unfold train_model.
  destruct (MODEL_REGISTRY !! model_type) as [c|]; [|done].
  rewrite (bind_ok _ _ _ _ _ (open_run_disabled _ _ _ _ w Hoff)).
  rewrite bind_unfold, new_model_run.
  destruct (sk_new sk c _) as [est|]; [|done].
  simpl. rewrite bind_unfold. simpl. rewrite bind_unfold.
  assert (∀ self : BaseMLModel sk,
            (BaseMLModel_train settings self X y None w).2 = w) as Hunit.
  { intros self. unfold BaseMLModel_train, LogisticRegression_train,
      RandomForest_train, model_or_raise.
    destruct (cls self); simpl; rewrite !bind_unfold; simpl;
      (destruct (sk_split sk X y) as [sp|]; simpl; [|done]);
      rewrite ?bind_unfold; simpl;
      (destruct (model self) as [e0|]; simpl; [|done]);
      unfold forest_announce, lift_sk, raise, mbind, M_bind, mret, M_ret;
      simpl;
      (destruct (sk_fit sk e0 sp) as [e1|]; simpl; [|done]);
      by destruct (sk_eval sk e1 sp). }
  specialize (Hunit (set_model est (BaseMLModel_init c hp))).
  destruct (BaseMLModel_train settings _ X y None w)
    as [[e|[m metrics]] w1]; simpl in Hunit; subst w1; [done|].
  rewrite bind_unfold. simpl. rewrite bind_unfold.
  unfold BaseMLModel_save. by destruct (is_trained m).
Qed.

(** C4.  For every request and every behaviour of the tracking backend,
    [train_model] with tracking disabled and [train_model] with any other
    settings either both raise or both return, and then with the same
    metrics and the same unit, leaving the same artifacts; the disabled run
    returns no task id and never calls the tracking SDK.  (scikit-learn is
    taken to validate [n_estimators] on [fit].) *)
Theorem C4_tracking_transparent off on model_type model_name X y hp w :
  validates_n_estimators sk →
  enabled (ClearMLService_init off) = false →
  let r_off := train_model off model_type model_name X y hp w in
  let r_on := train_model on model_type model_name X y hp w in
  is_ok r_off.1 = is_ok r_on.1
  ∧ returned_metrics r_off.1 = returned_metrics r_on.1
  ∧ returned_unit r_off.1 = returned_unit r_on.1
  ∧ files r_off.2 = files r_on.2
  ∧ returned_task_id r_off.1 = None
  ∧ backend r_off.2 = backend w.
Proof.
  intros Hval Hoff r_off r_on.
  assert (backend r_off.2 = backend w) as Hb
    by by apply train_model_disabled.
  subst r_off r_on.
  destruct (MODEL_REGISTRY !! model_type) as [c|] eqn:Hreg.
  2:{ unfold train_model in *. rewrite Hreg. by repeat split. }
  destruct (train_model_run off model_type model_name X y hp c w Hreg)
    as (t1 & w1 & Hnone & H1).
  destruct (train_model_run on model_type model_name X y hp c w Hreg)
    as (t2 & w2 & _ & H2).
  rewrite (Hnone Hoff) in H1. simpl in H1.
  pose proof (train_outcome_tracking c hp X y (truthy t2) Hval) as Hsame.
  destruct (train_outcome c hp X y false) as [e1|[m1 metrics1]];
    destruct (train_outcome c hp X y (truthy t2)) as [e2|[m2 metrics2]];
    try done.
  - destruct H1 as [E1 (F1 & _)], H2 as [E2 (F2 & _)].
    rewrite E1, E2 in *. simpl in *. repeat split; congruence.
  - destruct H1 as (c1 & E1 & F1 & _), H2 as (c2 & E2 & F2 & _).
    injection Hsame as <- <-.
    rewrite E1, E2 in *. simpl in *. repeat split; congruence.
Qed.

End ServiceProofs.

(** ** The dataset repository *)

Lemma from_last_dot_csv (x : string) : from_last_dot (x +:+ ".csv") = Some ".csv".
Proof. induction x as [|a x IH]; simpl; [done | by rewrite IH]. Qed.

Lemma Path_suffix_csv (x : string) :
  String.eqb (Path_suffix (x +:+ ".csv")) ".json" = false.
Proof.
  unfold Path_suffix. rewrite from_last_dot_csv.
  destruct (_ && _); reflexivity.
Qed.

(** Appending text without a slash extends the last component. *)
Lemma split_slash_app (x t : string) :
  split_slash t = [t] →
  ∃ pre c, split_slash x = (pre ++ [c])%list
           ∧ split_slash (x +:+ t) = (pre ++ [c +:+ t])%list.
Proof.
  intros Ht. induction x as [|a x (pre & c & Hx & Hxt)].
  - exists [], "". split; [done|]. change ("" +:+ t) with t. by rewrite Ht.
  - change (String a x +:+ t) with (String a (x +:+ t)). simpl.
    destruct (Ascii.eqb a _).
    + exists ("" :: pre), c. by rewrite Hx, Hxt.
    + rewrite Hx, Hxt. destruct pre as [|p pre]; simpl.
      * by exists [], (String a c).
      * by exists (String a p :: pre), c.
Qed.

Lemma Path_parts_app (x t : string) :
  split_slash t = [t] → (2 ≤ String.length t)%nat →
  ∃ c, last (Path_parts (x +:+ t)) = Some (c +:+ t).
Proof.
  intros Ht Hlen. destruct (split_slash_app x t Ht) as (pre & c & _ & Hxt).
  exists c. unfold Path_parts. rewrite Hxt, filter_app, filter_cons_True.
  - by rewrite filter_nil, last_snoc.
  - assert (2 ≤ String.length (c +:+ t))%nat as Hl
      by (rewrite string_length_app; lia).
    split; intros E; rewrite E in Hl; simpl in Hl; lia.
Qed.

Lemma is_plain_parts (name : string) :
  is_plain name = true → Path_parts name = [name] ∧ name ≠ "..".
Proof. unfold is_plain. intros H. by apply bool_decide_eq_true in H. Qed.

Section DatasetProofs.
Context {pd : Pandas} {fs : FileSystem}.
Implicit Types dir : gmap string (Content pd).

Lemma Path_name_csv (x : string) :
  ∃ c, Path_name (x +:+ ".csv") = c +:+ ".csv".
Proof.
  destruct (Path_parts_app x ".csv") as [c Hc]; [done | simpl; lia|].
  exists c. unfold Path_name. by rewrite Hc.
Qed.

Lemma Path_name_plain (name : string) :
  is_plain name = true → Path_name name = name.
Proof.
  intros H. apply is_plain_parts in H as [H _].
  unfold Path_name. by rewrite H.
Qed.

(** The order in which [_find_dataset_file] looks. *)
Lemma find_dataset_file_order name dir :
  _find_dataset_file name dir =
  if Path_exists name dir then Some name
  else if negb (endswith name ".csv") && Path_exists (name +:+ ".csv") dir
       then Some (name +:+ ".csv")
  else if negb (endswith name ".json") && Path_exists (name +:+ ".json") dir
       then Some (name +:+ ".json")
  else None.
Proof. reflexivity. Qed.

Lemma Path_exists_file path dir location :
  dataset_target path = File location →
  Path_exists path dir = bool_decide (is_Some (dir !! location)).
Proof. intros H. unfold Path_exists. by rewrite H. Qed.

Lemma read_file_csv x dir location content :
  dataset_target (x +:+ ".csv") = File location →
  dir !! location = Some content →
  read_file (x +:+ ".csv") dir =
  match read_csv pd content with
  | Some data => inr data
  | None => inl LibraryError
  end.
Proof.
  intros Ht H. unfold read_file. rewrite Ht, H.
  destruct (Path_name_csv x) as [c ->]. by rewrite Path_suffix_csv.
Qed.


(** The versioning side-channel only ever adds the sidecar file. *)
Lemma upload_lookup dataset_name dir path :
  sidecar_target dataset_name ≠ File path →
  _upload_to_s3_via_dvc dataset_name dir !! path = dir !! path.
Proof.
  intros Hne. unfold _upload_to_s3_via_dvc, add_dataset.
  destruct (dvc_version_ok pd); simpl; [|done].
  destruct (Path_exists _ _); simpl; [|done].
  destruct (dvc_add_ok pd dataset_name); simpl; [|done].
  destruct (sidecar_target dataset_name) as [side|]; [|done].
  rewrite lookup_insert_ne; [done|]. by intros ->.
Qed.

(** What [save_dataset] does when the path of the file leads to the place of
    a file. *)
Lemma save_dataset_file name data dir location :
  dataset_target (stored_name name) = File location →
  save_dataset name data dir =
  let dir' :=
    _upload_to_s3_via_dvc (stored_name name)
      (<[location :=
           if endswith name ".json" then to_json pd data
           else to_csv pd data]> dir) in
  (get_dataset_info (stored_name name) dir', dir').
Proof.
  unfold save_dataset, stored_name, write_file.
  destruct (endswith name ".json"); [by intros ->|].
  destruct (endswith name ".csv"); simpl; by intros ->.
Qed.





(** C10 (as amended).  What exists under exactly the name is found first.
    Otherwise [name.csv] is found if it exists and the name does not already
    end in [.csv], whether or not [name.json] exists, and [load] then
    returns the CSV file's data.  [name.json] is found only after that, and
    only if the name does not already end in [.json]. *)
Theorem C10_resolution_precedence name dir :
  (Path_exists name dir = true → _find_dataset_file name dir = Some name)
  ∧ (Path_exists name dir = false →
     endswith name ".csv" = false →
     ∀ location content,
       dataset_target (name +:+ ".csv") = File location →
       dir !! location = Some content →
       _find_dataset_file name dir = Some (name +:+ ".csv")
       ∧ load_dataset name dir =
           match read_csv pd content with
           | Some d => inr d
           | None => inl LibraryError
           end)
  ∧ (Path_exists name dir = false →
     endswith name ".csv" = true ∨ Path_exists (name +:+ ".csv") dir = false →
     endswith name ".json" = false →
     Path_exists (name +:+ ".json") dir = true →
     _find_dataset_file name dir = Some (name +:+ ".json")).
Proof.
  split; [|split].
  - intros H. by rewrite find_dataset_file_order, H.
  - intros Hfree Hc location content Hfile Hcsv.
    assert (_find_dataset_file name dir = Some (name +:+ ".csv")) as Hfind.
    { rewrite find_dataset_file_order, Hfree, Hc. simpl.
      rewrite (Path_exists_file _ _ location) by done.
      by rewrite bool_decide_eq_true_2 by (by rewrite Hcsv). }
    split; [done|]. unfold load_dataset. rewrite Hfind.
    by eapply read_file_csv.
  - intros Hfree Hno Hj Hjson.
    rewrite find_dataset_file_order, Hfree, Hj, Hjson. simpl.
    destruct Hno as [->| ->]; [done|]. by rewrite andb_false_r.
Qed.

End DatasetProofs.

(** ** Examples *)

Lemma toy_sklearn_validates : validates_n_estimators toy_sklearn.
Proof.
  intros params est sp v [= <-] Hv Hgt. simpl. by rewrite Hv, Hgt.
Qed.

Lemma empty_world_in_lockstep : in_lockstep empty_world.
Proof.
  split; intros x; simpl; rewrite lookup_empty; by intros [??].
Qed.

(** The run that leads to [trained_world]. *)
Lemma trained_world_run :
  ∃ m metrics task_id,
    train_model (sk := toy_sklearn) (cl := flaky_clearml) tracking_on
      "RandomForest" "m" [1; 2; 3] [0; 1; 0] (Some ten_trees) empty_world
    = (inr (m, metrics, task_id), trained_world).
Proof.
  assert (is_ok (train_model (sk := toy_sklearn) (cl := flaky_clearml)
                   tracking_on "RandomForest" "m" [1; 2; 3] [0; 1; 0]
                   (Some ten_trees) empty_world).1 = true) as Hok
    by (vm_compute; reflexivity).
  unfold trained_world.
  destruct (train_model (sk := toy_sklearn) (cl := flaky_clearml)
              tracking_on "RandomForest" "m" [1; 2; 3] [0; 1; 0]
              (Some ten_trees) empty_world)
    as [[e|[[m metrics] task_id]] w'] eqn:E; [discriminate Hok|].
  by exists m, metrics, task_id.
Qed.

(** ["m"] is the one record of [trained_world]. *)
Lemma trained_world_unshared : unshared trained_world "m".
Proof.
  destruct trained_world_run as (m & metrics & task_id & E).
  apply train_model_success in E as (c & t & _ & _ & _ & _ & Hm & _).
  intros name Hr _. rewrite Hm in Hr.
  destruct (decide (name = "m")) as [->|Hne]; [done|].
  rewrite lookup_insert_ne in Hr by done. simpl in Hr.
  rewrite lookup_empty in Hr. by destruct Hr.
Qed.

(** C1 at work: training from the empty state, then deleting the model. *)
Lemma C1_lockstep_example :
  in_lockstep trained_world
  ∧ in_lockstep (delete_model "m" trained_world).2.
Proof.
  destruct (C1_lockstep tracking_on empty_world empty_world_in_lockstep)
    as (Htrain & _ & _).
  pose proof (Htrain "RandomForest" "m" [1; 2; 3] [0; 1; 0] (Some ten_trees))
    as [Hin _].
  split; [exact Hin|].
  destruct (C1_lockstep tracking_on trained_world Hin) as (_ & _ & Hdelete).
  apply (Hdelete "m"). exact trained_world_unshared.
Defined.

(** C1 as stated fails.  The names ["./a"] and ["a"] lead to one artifact
    file.  After training under ["./a"] the stores are in lockstep, file by
    file, although the artifact that the name ["a"] leads to exists and
    ["a"] has no record; deleting ["a"] then returns, having removed the
    file, and the record of ["./a"] is left without its artifact. *)
Lemma C1_delete_orphans_record :
  model_path "./a" = model_path "a"
  ∧ in_lockstep aliased_world
  ∧ is_trained <$> files aliased_world !! model_path "a" = Some true
  ∧ rec_type <$> metadata aliased_world !! "a" = None
  ∧ (delete_model "a" aliased_world).1 = inr true
  ∧ rec_type <$> metadata (delete_model "a" aliased_world).2 !! "./a"
    = Some "RandomForest"
  ∧ files (delete_model "a" aliased_world).2 !! model_path "./a" = None.
Proof.
  split; [reflexivity|]. split.
  - apply (train_model_lockstep (sk := toy_sklearn) tracking_on
             "RandomForest" "./a" [1; 2; 3] [0; 1; 0] (Some ten_trees)
             empty_world empty_world_in_lockstep).
  - repeat split; vm_compute; reflexivity.
Qed.


(** C3 as stated fails: training a forest with only [n_estimators]
    overridden stores exactly that one entry in the record, whereas the
    parameters the estimator was built with also carry the defaults. *)
Lemma C3_record_keeps_overrides_only :
  is_ok (train_model (sk := toy_sklearn) tracking_on "RandomForest" "m"
           [1; 2; 3] [0; 1; 0] (Some ten_trees) empty_world).1 = true
  ∧ rec_hyperparameters <$> metadata trained_world !! "m" = Some ten_trees
  ∧ ten_trees !! "max_depth" = None
  ∧ dict_update (get_default_hyperparameters RandomForest) ten_trees
      !! "max_depth" = Some HNone.
Proof. repeat split; vm_compute; reflexivity. Qed.

(** C3 (amended) at work on the same request. *)
Lemma C3_record_example :
  ∃ r, metadata trained_world !! "m" = Some r
       ∧ rec_hyperparameters r = ten_trees.
Proof.
  assert (is_ok (train_model (sk := toy_sklearn) (cl := flaky_clearml)
                   tracking_on "RandomForest" "m" [1; 2; 3] [0; 1; 0]
                   (Some ten_trees) empty_world).1 = true) as Hok
    by (vm_compute; reflexivity).
  unfold trained_world.
  destruct (train_model (sk := toy_sklearn) (cl := flaky_clearml)
              tracking_on "RandomForest" "m" [1; 2; 3] [0; 1; 0]
              (Some ten_trees) empty_world)
    as [[e|[[m metrics] task_id]] w'] eqn:E; [discriminate Hok|].
  destruct (C3_record_hyperparameters _ _ _ _ _ _ _ _ _ _ _ E)
    as (r & c & est & Hr & Hhp & _).
  exists r. split; [exact Hr | exact Hhp].
Defined.

(** C4 at work: a request that the forest rejects, against a backend that
    fails at every other call.  Both runs raise. *)
Lemma C4_tracking_example :
  is_ok (train_model (sk := toy_sklearn) (cl := flaky_clearml) tracking_off
           "RandomForest" "m" [1; 2; 3] [0; 1; 0] (Some many_trees)
           empty_world).1
  = is_ok (train_model (sk := toy_sklearn) (cl := flaky_clearml) tracking_on
             "RandomForest" "m" [1; 2; 3] [0; 1; 0] (Some many_trees)
             empty_world).1.
Proof.
  pose proof (C4_tracking_transparent (sk := toy_sklearn)
                (cl := flaky_clearml) tracking_off tracking_on
                "RandomForest" "m" [1; 2; 3] [0; 1; 0] (Some many_trees)
                empty_world toy_sklearn_validates eq_refl) as H.
  cbv zeta in H. exact (proj1 H).
Defined.



(** C8 at work: ten trees requested, the other parameters at their
    defaults. *)
Lemma C8_parameters_example :
  _get_model_params
    (BaseMLModel_init RandomForest (Some ten_trees) : BaseMLModel toy_sklearn)
    !! "n_estimators" = Some (HInt 10)
  ∧ _get_model_params
      (BaseMLModel_init RandomForest (Some ten_trees) : BaseMLModel toy_sklearn)
      !! "min_samples_split" = Some (HInt 2).
Proof.
  destruct (C8_estimator_parameters (sk := toy_sklearn) (cl := flaky_clearml)
              "RandomForest" RandomForest (Some ten_trees) empty_world
              eq_refl) as [H _].
  split; rewrite H; reflexivity.
Defined.

(** C10 as stated fails: with [a.csv.csv] and [a.csv.json] both present and
    no file [a.csv], loading [a.csv] skips the [.csv] candidate and returns
    the JSON file's data. *)
Lemma C10_json_before_csv :
  two_uploads !! "a.csv" = None
  ∧ two_uploads !! ("a.csv" +:+ ".csv") = Some 1%nat
  ∧ two_uploads !! ("a.csv" +:+ ".json") = Some 2%nat
  ∧ _find_dataset_file "a.csv" two_uploads = Some ("a.csv" +:+ ".json")
  ∧ load_dataset (pd := toy_pandas) "a.csv" two_uploads = inr 2%nat.
Proof. repeat split; vm_compute; reflexivity. Qed.

(** * Further properties of the orchestrator *)

Section MoreServiceProofs.
Context {sk : Sklearn} {cl : ClearML} {fs : FileSystem}.
Implicit Types w : world sk cl.
Local Abbreviation M := (M sk cl).

Lemma load_model_run model_name w :
  load_model model_name w =
  (match files w !! model_path model_name with
   | Some u => inr u
   | None => inl (FileNotFoundError model_name)
   end, w).
Proof.
  unfold load_model, exists_artifact, BaseMLModel_load.
  rewrite bind_unfold. simpl.
  destruct (files w !! model_path model_name) as [u|] eqn:Hf; simpl.
  - by rewrite Hf.
  - reflexivity.
Qed.

(** X1.  Train, then load: the artifact stored under the name is the unit
    that [train_model] returned; it is trained, and its estimator is the one
    that scikit-learn constructed from the merged parameters and then fitted
    on the training part of the split; predicting under the name is
    scikit-learn's [predict] on that fitted estimator. *)
Theorem train_then_load settings model_type model_name X y hp w
    m metrics task_id w' :
  train_model settings model_type model_name X y hp w
  = (inr (m, metrics, task_id), w') →
  load_model model_name w' = (inr m, w')
  ∧ is_trained m = true
  ∧ ∃ c est0 sp est,
      MODEL_REGISTRY !! model_type = Some c
      ∧ sk_new sk c (dict_update (get_default_hyperparameters c) (or_empty hp))
        = Some est0
      ∧ sk_split sk X y = Some sp
      ∧ sk_fit sk est0 sp = Some est
      ∧ model m = Some est
      ∧ ∀ rows,
          predict model_name rows w' =
          (match sk_predict sk est rows with
           | Some labels => inr labels
           | None => inl LibraryError
           end, w').
Proof.
  intros E.
  apply train_model_success in E as (c & t & Hreg & Ho & _ & Hf & _).
  assert (files w' !! model_path model_name = Some m) as Hm
    by by rewrite Hf, lookup_insert_eq.
  split; [by rewrite load_model_run, Hm|].
  unfold train_outcome, fit_outcome, _get_model_params in Ho. simpl in Ho.
  destruct (sk_new sk c _) as [est0|] eqn:Hnew; [|done].
  destruct (sk_split sk X y) as [sp|]; [|done].
  destruct (guard_raises _ _ _); [done|]. simpl in Ho.
  destruct (sk_fit sk _ _) as [est|] eqn:Hfit; [|done].
  destruct (sk_eval sk _ _); [|done].
  injection Ho as <- _. split; [done|].
  exists c, est0, sp, est. repeat split; try done.
  intros rows. by rewrite predict_run, Hm.
Qed.

(** X2.  A [train_model] or [retrain_model] that raises has changed neither
    store: artifacts, records, the metadata file and the trace of effects are
    as before, so that a model already stored under the name is still the one
    that loads. *)
Theorem failed_training_changes_nothing settings model_name X y hp w :
  (∀ model_type e w',
     train_model settings model_type model_name X y hp w = (inl e, w') →
     same_stores w w'
     ∧ ∀ n, (load_model n w').1 = (load_model n w).1)
  ∧ (∀ e w',
       retrain_model settings model_name X y hp w = (inl e, w') →
       same_stores w w'
       ∧ ∀ n, (load_model n w').1 = (load_model n w).1).
Proof.
  assert (∀ w', same_stores w w' →
                ∀ n, (load_model n w').1 = (load_model n w).1) as Hload.
  { intros w' (Hf & _) n. rewrite !load_model_run. simpl. by rewrite Hf. }
  split.
  - intros model_type e w' E. apply train_model_failure in E. eauto.
  - intros e w' E. rewrite retrain_model_run in E.
    destruct (metadata w !! model_name) as [r|].
    + apply train_model_failure in E. eauto.
    + injection E as _ <-. split; [apply same_stores_refl | done].
Qed.

(** X3.  Serving a request about one model name leaves the record of every
    other name as it was, and the artifact of every name that leads to
    another file. *)
Theorem other_models_untouched settings (rq : request sk) w other :
  (other ≠ subject rq →
   metadata (serve settings rq w) !! other = metadata w !! other)
  ∧ (model_path other ≠ model_path (subject rq) →
     files (serve settings rq w) !! model_path other
     = files w !! model_path other).
Proof.
  assert (∀ model_type model_name X y hp,
            let w' :=
              (train_model settings model_type model_name X y hp w).2 in
            (other ≠ model_name → metadata w' !! other = metadata w !! other)
            ∧ (model_path other ≠ model_path model_name →
               files w' !! model_path other = files w !! model_path other))
    as Htrain.
  { intros model_type model_name X y hp.
    destruct (train_model settings model_type model_name X y hp w)
      as [[e|[[m metrics] tid]] w'] eqn:E; simpl.
    - apply train_model_failure in E as (Hf & Hm & _).
      by rewrite Hf, Hm.
    - apply train_model_success in E as (c & t & _ & _ & _ & Hf & Hm & _).
      rewrite Hf, Hm. split; intros Hne; by rewrite lookup_insert_ne. }
  destruct rq as [model_type model_name X y hp|model_name X y hp
                  |model_name|model_name rows]; simpl.
  - by apply Htrain.
  - rewrite retrain_model_run.
    destruct (metadata w !! model_name); [by apply Htrain | done].
  - destruct (files w !! model_path model_name) as [u|] eqn:Hu.
    + destruct (delete_model_found model_name w)
        as (w' & E & Hf & Hm & _); [by rewrite Hu|].
      rewrite E. simpl. rewrite Hf, Hm.
      split; intros Hne; by rewrite lookup_delete_ne.
    + by rewrite delete_model_missing.
  - by rewrite predict_run.
Qed.

(** X4.  After a delete that returned, the model is gone for every operation:
    load, predict, retrain and a second delete raise [FileNotFoundError], and
    the listing no longer has the name. *)
Theorem deleted_model_is_gone settings model_name w w' :
  delete_model model_name w = (inr true, w') →
  (load_model model_name w').1 = inl (FileNotFoundError model_name)
  ∧ (∀ rows,
       (predict model_name rows w').1 = inl (FileNotFoundError model_name))
  ∧ (∀ X y hp,
       (retrain_model settings model_name X y hp w').1
       = inl (FileNotFoundError model_name))
  ∧ delete_model model_name w' = (inl (FileNotFoundError model_name), w')
  ∧ model_name ∉ (list_models w').*1.
Proof.
  intros E.
  assert (is_Some (files w !! model_path model_name)) as Hsome.
  { destruct (files w !! model_path model_name) eqn:Hf; [done|].
    rewrite delete_model_missing in E by done. discriminate. }
  destruct (delete_model_found model_name w Hsome)
    as (w1 & E1 & Hf & Hm & _).
  rewrite E1 in E. injection E as <-.
  assert (files w1 !! model_path model_name = None) as Hgone
    by by rewrite Hf, lookup_delete_eq.
  assert (metadata w1 !! model_name = None) as Hrec
    by by rewrite Hm, lookup_delete_eq.
  split; [by rewrite load_model_run, Hgone|].
  split; [intros; by rewrite predict_run, Hgone|].
  split; [intros; by rewrite retrain_model_run, Hrec|].
  split; [by apply delete_model_missing|].
  unfold list_models. rewrite <- list_fmap_compose.
  intros Hin. apply list_elem_of_fmap in Hin as ([n r] & -> & Hin).
  apply elem_of_map_to_list in Hin. simpl in Hrec. congruence.
Qed.

Lemma train_model_synced settings model_type model_name X y hp w :
  synced w →
  synced (train_model settings model_type model_name X y hp w).2.
Proof.
  intros Hs.
  destruct (train_model settings model_type model_name X y hp w)
    as [[e|[[m metrics] tid]] w'] eqn:E; simpl.
  - apply train_model_failure in E as (_ & Hm & Hmf & _).
    unfold synced. by rewrite <- Hm, <- Hmf.
  - by apply train_model_success in E as (c & t & _ & _ & _ & _ & _ & Hmf & _).
Qed.

(** X5.  The metadata file follows the records. If the file agrees with the
    records held in memory, it still does after any request; after a train or
    retrain that returned it agrees in any case. A restart over a file that
    agrees brings back the same records; a restart without a metadata file
    starts from no records. *)
Theorem metadata_survives_restart settings w :
  (synced w → ∀ rq : request sk, synced (serve settings rq w))
  ∧ (∀ model_type model_name X y hp r w',
       train_model settings model_type model_name X y hp w = (inr r, w') →
       synced w' ∧ metadata (restart w') = metadata w')
  ∧ (∀ model_name X y hp r w',
       retrain_model settings model_name X y hp w = (inr r, w') →
       synced w' ∧ metadata (restart w') = metadata w')
  ∧ (synced w → metadata (restart w) = metadata w)
  ∧ (metadata_file w = None → metadata (restart w) = ∅).
Proof.
  assert (∀ w0 : world sk cl, synced w0 → metadata (restart w0) = metadata w0)
    as Hrestart.
  { intros w0 H0. unfold restart, ModelService_init, modify, _load_metadata.
    simpl. by rewrite H0. }
  assert (∀ model_type model_name X y hp r w',
            train_model settings model_type model_name X y hp w = (inr r, w') →
            synced w' ∧ metadata (restart w') = metadata w') as Htrain.
  { intros model_type model_name X y hp [[m metrics] tid] w' E.
    apply train_model_success in E
      as (c & t & _ & _ & _ & _ & _ & Hmf & _).
    split; [done | by apply Hrestart]. }
  split; [|split; [|split; [|split]]].
  - intros Hs rq.
    destruct rq as [model_type model_name X y hp|model_name X y hp
                    |model_name|model_name rows]; simpl.
    + by apply train_model_synced.
    + rewrite retrain_model_run.
      destruct (metadata w !! model_name); [by apply train_model_synced|done].
    + destruct (files w !! model_path model_name) as [u|] eqn:Hu.
      * destruct (delete_model_found model_name w)
          as (w' & E & _ & Hm & _ & _ & Hmf); [by rewrite Hu|].
        rewrite E. simpl. unfold synced. rewrite Hmf, Hm.
        case_bool_decide as Hrec; [done|].
        rewrite Hs. f_equal. symmetry. apply delete_id.
        by apply eq_None_not_Some.
      * by rewrite delete_model_missing.
    + by rewrite predict_run.
  - exact Htrain.
  - intros model_name X y hp r w' E. rewrite retrain_model_run in E.
    destruct (metadata w !! model_name); [by eapply Htrain | discriminate].
  - apply Hrestart.
  - intros Hnone. unfold restart, ModelService_init, modify, _load_metadata.
    simpl. by rewrite Hnone.
Qed.

Lemma list_models_elem w name ty created metrics :
  (name, (ty, created, metrics)) ∈ list_models w
  ↔ ∃ r, metadata w !! name = Some r
         ∧ rec_type r = ty ∧ rec_created_at r = created
         ∧ rec_metrics r = metrics.
Proof.
  unfold list_models. rewrite list_elem_of_fmap. split.
  - intros ([n r] & [= -> -> -> ->] & Hin).
    apply elem_of_map_to_list in Hin. by exists r.
  - intros (r & Hr & <- & <- & <-). exists (name, r).
    split; [done | by apply elem_of_map_to_list].
Qed.

Lemma list_models_length w : length (list_models w) = size (metadata w).
Proof. unfold list_models. by rewrite length_fmap, length_map_to_list. Qed.

(** X6.  [list_models] shows the metadata store and nothing else: one entry
    per record, with the record's type, creation time and metrics, no name
    twice; the artifact store is not consulted. *)
Theorem list_models_shows_records w :
  (∀ name ty created metrics,
     (name, (ty, created, metrics)) ∈ list_models w
     ↔ ∃ r, metadata w !! name = Some r
            ∧ rec_type r = ty ∧ rec_created_at r = created
            ∧ rec_metrics r = metrics)
  ∧ NoDup (list_models w).*1
  ∧ length (list_models w) = size (metadata w).
Proof.
  split; [|split].
  - apply list_models_elem.
  - unfold list_models. rewrite <- list_fmap_compose.
    apply (NoDup_fst_map_to_list (metadata w)).
  - apply list_models_length.
Qed.

(** X7.  After a train that returned, the listing has the model under its
    name, with the requested type and the returned metrics; it has one more
    entry if the name is new and as many as before if the name was taken. *)
Theorem trained_model_is_listed settings model_type model_name X y hp w
    m metrics task_id w' :
  train_model settings model_type model_name X y hp w
  = (inr (m, metrics, task_id), w') →
  (∃ created, (model_name, (model_type, created, metrics)) ∈ list_models w')
  ∧ length (list_models w') =
      (if bool_decide (is_Some (metadata w !! model_name))
       then length (list_models w)
       else S (length (list_models w)))
  ∧ rec_clearml_task_id <$> metadata w' !! model_name = Some task_id.
Proof.
  intros E.
  apply train_model_success in E as (c & t & _ & _ & _ & _ & Hm & _).
  pose proof (list_models_length w') as Hlen'.
  pose proof (list_models_length w) as Hlen.
  split; [|split].
  - exists t. apply list_models_elem. eexists. split; [by rewrite Hm, lookup_insert_eq|done].
  - rewrite Hlen', Hlen, Hm. case_bool_decide as Hrec.
    + destruct Hrec as [r Hr]. by rewrite map_size_insert_Some.
    + apply map_size_insert_None. by apply eq_None_not_Some.
  - by rewrite Hm, lookup_insert_eq.
Qed.

Lemma collect_model_types_run (items : list (string * model_class)) w :
  (∀ name c, (name, c) ∈ items →
     is_Some (sk_new sk c (get_default_hyperparameters c))) →
  collect_model_types items w =
  (inr ((λ item, {| mt_name := item.1; mt_description := item.2;
                    mt_hyperparameters :=
                      get_default_hyperparameters item.2 |}) <$> items), w).
Proof.
  induction items as [|[name c] items IH]; intros Hok; [done|].
  simpl. rewrite bind_unfold, new_model_run.
  unfold _get_model_params, dict_update. simpl. rewrite (left_id ∅ (∪)).
  destruct (Hok name c) as [est ->]; [set_solver|].
  rewrite bind_unfold, IH; [done|].
  intros name' c' Hin. apply (Hok name' c'). set_solver.
Qed.

(** X8.  The model types on offer are the registry. When scikit-learn accepts
    the default parameters of every class, [get_available_model_types]
    returns, touching nothing, one entry per registered type, in the order of
    the registry, each with the defaults of its class; the names listed are
    exactly the types that are keys of [MODEL_REGISTRY]. *)
Theorem model_types_are_the_registry w :
  (∀ c, is_Some (sk_new sk c (get_default_hyperparameters c))) →
  ∃ types,
    get_available_model_types w = (inr types, w)
    ∧ mt_name <$> types = ["LogisticRegression"; "RandomForest"]
    ∧ (∀ t, t ∈ types →
         MODEL_REGISTRY !! mt_name t = Some (mt_description t)
         ∧ mt_hyperparameters t
           = get_default_hyperparameters (mt_description t))
    ∧ (∀ name, name ∈ mt_name <$> types ↔ is_Some (MODEL_REGISTRY !! name)).
Proof.
  intros Hok. unfold get_available_model_types.
  rewrite collect_model_types_run by (intros ? c ?; apply (Hok c)).
  eexists. split; [reflexivity|]. simpl. split; [done|]. split.
  - intros t Ht. set_unfold in Ht. destruct Ht as [->|[->|[]]]; by split.
  - intros name. unfold MODEL_REGISTRY. split.
    + intros Hin. set_unfold in Hin. destruct Hin as [->|[->|[]]]; by eexists.
    + intros [c Hc].
      destruct (decide (name = "LogisticRegression")) as [->|H1];
        [set_solver|].
      destruct (decide (name = "RandomForest")) as [->|H2]; [set_solver|].
      by rewrite !lookup_insert_ne, lookup_empty in Hc.
Qed.

End MoreServiceProofs.

(** * Further properties of the tracking service *)

Section MoreTrackingProofs.
Context {sk : Sklearn} {cl : ClearML} (cq : ClearMLQueries cl).
Local Abbreviation M := (M sk cl).

(** X9.  Six methods of [ClearMLService] (all but [get_task_logger], which
    nothing calls) degrade, against any backend: an exception inside the SDK
    is swallowed and becomes the absent result, with nothing changed but
    what the SDK did to its backend; no method ever raises or touches the
    model stores; and a disabled service makes no call into the SDK. *)
Theorem tracking_methods_degrade (self : ClearMLService) :
  (∀ project_name task_name model_type hp,
     degrades self
       (create_training_task self project_name task_name model_type hp : M _)
       None
       (λ b, failed
               (sdk_create_task cl project_name task_name model_type hp b)))
  ∧ (∀ task_id metrics iteration,
       degrades self (log_metrics self task_id metrics iteration : M _) tt
         (λ b, failed_ (sdk_report_metrics cl task_id metrics iteration b)))
  ∧ (∀ task_id message iteration,
       degrades self
         (log_training_progress self task_id message iteration : M _) tt
         (λ b, failed_ (sdk_report_text cl task_id message iteration b)))
  ∧ (∀ task_id path model_name meta,
       degrades self (upload_model self task_id path model_name meta : M _)
         None
         (λ b, failed (sdk_upload_model cl task_id path model_name meta b)))
  ∧ (∀ model_name,
       degrades self (get_model cq self model_name : M _) None
         (λ b, failed (sdk_get_local_copy cq model_name b)))
  ∧ (∀ project_name,
       degrades self (registry_models cq self project_name : M _) []
         (λ b, failed (sdk_query_models cq project_name b))).
Proof.
  repeat split; intros.
  - apply quiet_create_training_task.
  - unfold create_training_task. by rewrite H.
  - revert H0. unfold create_training_task, try_except, sdk, failed.
    rewrite H. simpl. rewrite ?bind_unfold. simpl.
    destruct (sdk_create_task _ _ _ _ _ _) as [[id|] b']; [done|].
    by intros [= ->].
  - apply quiet_log_metrics.
  - unfold log_metrics. by rewrite H.
  - revert H0. unfold log_metrics, swallow, try_except, sdk_, failed_.
    rewrite H. simpl.
    destruct (sdk_report_metrics _ _ _ _ _) as [[|] b']; [done|].
    by intros [= ->].
  - apply quiet_log_training_progress.
  - unfold log_training_progress. by rewrite H.
  - revert H0. unfold log_training_progress, swallow, try_except, sdk_, failed_.
    rewrite H. simpl.
    destruct (sdk_report_text _ _ _ _ _) as [[|] b']; [done|].
    by intros [= ->].
  - apply quiet_upload_model.
  - unfold upload_model. by rewrite H.
  - revert H0. unfold upload_model, try_except, sdk, failed.
    rewrite H. simpl. rewrite ?bind_unfold. simpl.
    destruct (sdk_upload_model _ _ _ _ _ _) as [[id|] b']; [done|].
    by intros [= ->].
  - unfold get_model. destruct (negb _); [apply quiet_ret|].
    apply quiet_try_except; [|intros _; apply quiet_ret].
    apply harmless_bind; [apply harmless_sdk | intros; apply harmless_ret].
  - unfold get_model. by rewrite H.
  - revert H0. unfold get_model, try_except, sdk, failed.
    rewrite H. simpl. rewrite ?bind_unfold. simpl.
    destruct (sdk_get_local_copy _ _ _) as [[path|] b']; [done|].
    by intros [= ->].
  - unfold registry_models. destruct (negb _); [apply quiet_ret|].
    apply quiet_try_except; [apply harmless_sdk | intros _; apply quiet_ret].
  - unfold registry_models. by rewrite H.
  - revert H0. unfold registry_models, try_except, sdk, failed.
    rewrite H. simpl.
    destruct (sdk_query_models _ _ _) as [[names|] b']; [done|].
    by intros [= ->].
Qed.

(** X10.  The service is enabled exactly when the package is importable and
    the API host, the access key and the secret key are all set to non-empty
    strings. *)
Theorem enabled_needs_all_credentials settings :
  enabled (ClearMLService_init settings) = true
  ↔ CLEARML_AVAILABLE settings = true
    ∧ (∃ host, clearml_api_host settings = Some host ∧ host ≠ "")
    ∧ (∃ key, clearml_access_key settings = Some key ∧ key ≠ "")
    ∧ (∃ key, clearml_secret_key settings = Some key ∧ key ≠ "").
Proof.
  assert (∀ o, truthy o = true ↔ ∃ s, o = Some s ∧ s ≠ "") as Htruthy.
  { intros [s|]; simpl.
    - rewrite negb_true_iff. split.
      + intros H. exists s. split; [done|]. intros ->. discriminate.
      + intros (s' & [= <-] & Hne). by apply String.eqb_neq.
    - split; [done | by intros (? & ? & _)]. }
  unfold ClearMLService_init, _is_configured. simpl.
  rewrite !andb_true_iff, !Htruthy. tauto.
Qed.

End MoreTrackingProofs.

(** * The progress loop of the forest *)

Lemma length_py_range start stop step :
  length (py_range start stop step)
  = Z.to_nat ((stop - start + step - 1) / step).
Proof. unfold py_range. by rewrite length_fmap, length_seq. Qed.

(** X11.  [for i in range(0, n_estimators, max(1, n_estimators // 10))],
    entered only when [n_estimators > 10]: whatever the size of the ensemble,
    the loop runs at least 10 and at most 19 times, it starts at 0 and every
    index is below [n_estimators]. *)
Theorem forest_progress_is_throttled (n : Z) :
  (10 < n)%Z →
  let indices := py_range 0 n (Z.max 1 (n / 10)) in
  (10 ≤ length indices ≤ 19)%nat
  ∧ head indices = Some 0%Z
  ∧ ∀ i, i ∈ indices → (0 ≤ i < n)%Z.
Proof.
  intros Hn indices.
  assert (1 ≤ n / 10)%Z as Hq by (apply Z.div_le_lower_bound; lia).
  assert (Z.max 1 (n / 10) = n / 10)%Z as Hstep by lia.
  pose proof (Z.mul_div_le n 10 ltac:(lia)) as Hlow.
  pose proof (Z.mul_succ_div_gt n 10 ltac:(lia)) as Hhigh.
  set (q := (n / 10)%Z) in *.
  set (k := ((n - 0 + q - 1) / q)%Z).
  assert (10 ≤ k)%Z as Hk10 by (apply Z.div_le_lower_bound; lia).
  assert (k < 20)%Z as Hk20 by (apply Z.div_lt_upper_bound; lia).
  assert (q * k ≤ n - 0 + q - 1)%Z as Hmul by (apply Z.mul_div_le; lia).
  assert (length indices = Z.to_nat k) as Hlen.
  { unfold indices. by rewrite length_py_range, Hstep. }
  split; [lia|]. split.
  - unfold indices, py_range. rewrite Hstep. fold k.
    destruct (Z.to_nat k) as [|k'] eqn:Hk; [lia|]. reflexivity.
  - intros i Hi. unfold indices, py_range in Hi. rewrite Hstep in Hi.
    fold k in Hi. apply list_elem_of_fmap in Hi as (j & -> & Hj).
    apply elem_of_seq in Hj. nia.
Qed.

(** * Further properties of the dataset repository *)

Lemma substring_all (t : string) : String.substring 0 (String.length t) t = t.
Proof. induction t as [|a t IH]; simpl; [done | by rewrite IH]. Qed.

Lemma substring_skip (x t : string) :
  String.substring (String.length x) (String.length t) (x +:+ t) = t.
Proof. induction x as [|a x IH]; simpl; [apply substring_all | done]. Qed.

Lemma endswith_app (x t : string) : endswith (x +:+ t) t = true.
Proof.
  unfold endswith. rewrite string_length_app.
  replace (String.length x + String.length t - String.length t)%nat
    with (String.length x) by lia.
  rewrite substring_skip, String.eqb_refl.
  rewrite andb_true_r. apply Nat.leb_le. lia.
Qed.

Lemma from_last_dot_json (x : string) :
  from_last_dot (x +:+ ".json") = Some ".json".
Proof. induction x as [|a x IH]; simpl; [done | by rewrite IH]. Qed.

Lemma from_last_dot_dvc (x : string) :
  from_last_dot (x +:+ ".dvc") = Some ".dvc".
Proof. induction x as [|a x IH]; simpl; [done | by rewrite IH]. Qed.

Lemma Path_suffix_json (x : string) :
  Path_suffix (x +:+ ".json") = if String.eqb x "" then "" else ".json".
Proof.
  unfold Path_suffix. rewrite from_last_dot_json, string_length_app.
  destruct x as [|a x]; simpl; [done|].
  replace (5 <? S (String.length x + 5))%nat with true; [done|].
  symmetry. apply Nat.ltb_lt. lia.
Qed.

Lemma sidecar_is_no_data_file (x : string) : is_data_file (x +:+ ".dvc") = false.
Proof.
  unfold is_data_file, Path_suffix. rewrite from_last_dot_dvc.
  by destruct (_ && _).
Qed.

Section MoreDatasetProofs.
Context {pd : Pandas} {fs : FileSystem}.
Implicit Types dir : gmap string (Content pd).

Lemma Path_name_json (x : string) :
  ∃ c, Path_name (x +:+ ".json") = c +:+ ".json".
Proof.
  destruct (Path_parts_app x ".json") as [c Hc]; [done | simpl; lia|].
  exists c. unfold Path_name. by rewrite Hc.
Qed.

Lemma get_dataset_info_exact path dir location content :
  dataset_target path = File location →
  dir !! location = Some content →
  get_dataset_info path dir = inr (info_of path content dir).
Proof.
  intros Ht H. unfold get_dataset_info. rewrite find_dataset_file_order.
  rewrite (Path_exists_file _ _ location) by done.
  rewrite bool_decide_eq_true_2 by (by rewrite H).
  unfold stat. by rewrite Ht, H.
Qed.

(** What [save_dataset] does when the path of the file leads to a
    directory: [to_csv] and [to_json] cannot open it. *)
Lemma save_dataset_directory name data dir st_size :
  dataset_target (stored_name name) = Directory st_size →
  save_dataset name data dir = (inl OSError, dir).
Proof.
  unfold save_dataset, stored_name, write_file.
  destruct (endswith name ".json"); [by intros ->|].
  destruct (endswith name ".csv"); simpl; by intros ->.
Qed.

(** X12.  [save_dataset] writes one data file, at the path of the dataset
    name with [.csv] appended unless the name ends in [.csv] or [.json], in
    the format that the extension asks for, and returns the info of that
    file; apart from that file and its sidecar the directory is unchanged,
    and without DVC there is no sidecar either.  Where that path leads to a
    directory the write raises and nothing changes. *)
Theorem save_dataset_writes_one_file name data dir :
  let stored := stored_name name in
  let content :=
    if endswith name ".json" then to_json pd data else to_csv pd data in
  let dir' := (save_dataset name data dir).2 in
  match dataset_target stored with
  | Directory _ => save_dataset name data dir = (inl OSError, dir)
  | File location =>
      (sidecar_target stored ≠ File location →
       (save_dataset name data dir).1 = inr (info_of stored content dir')
       ∧ dir' !! location = Some content)
      ∧ (∀ path, path ≠ location → sidecar_target stored ≠ File path →
           dir' !! path = dir !! path)
      ∧ (dvc_version_ok pd = false → dir' = <[location := content]> dir)
  end.
Proof.
  intros stored content dir'.
  destruct (dataset_target stored) as [location|st_size] eqn:Ht;
    [|by eapply save_dataset_directory].
  pose proof (save_dataset_file name data dir location Ht) as Hsave.
  simpl in Hsave. fold content in Hsave.
  assert (dir' = _upload_to_s3_via_dvc (stored_name name)
                   (<[location := content]> dir)) as Hdir
    by (unfold dir'; by rewrite Hsave).
  split; [|split].
  - intros Hside.
    assert (dir' !! location = Some content) as Hstored.
    { rewrite Hdir, upload_lookup by done. by rewrite lookup_insert_eq. }
    split; [|done]. unfold dir' in *. rewrite Hsave in *. simpl in *.
    by apply (get_dataset_info_exact _ _ location).
  - intros path Hne Hside. rewrite Hdir.
    rewrite upload_lookup by done. by rewrite lookup_insert_ne.
  - intros Hoff. rewrite Hdir. unfold _upload_to_s3_via_dvc. by rewrite Hoff.
Qed.

(** X13.  JSON round trip.  After saving under a name that ends in [.json],
    where the path leads to the place of a file and the sidecar to another
    one, loading that name reads the file back as JSON, except where the
    name of the file is [.json] itself, which [pathlib] takes for a hidden
    file without suffix and which is therefore parsed as CSV. *)
Theorem json_round_trip (x : string) data dir location :
  dataset_target (x +:+ ".json") = File location →
  sidecar_target (x +:+ ".json") ≠ File location →
  load_dataset (x +:+ ".json") (save_dataset (x +:+ ".json") data dir).2 =
  match
    (if String.eqb (Path_name (x +:+ ".json")) ".json"
     then read_csv pd else read_json pd) (to_json pd data)
  with
  | Some d => inr d
  | None => inl LibraryError
  end.
Proof.
  intros Hfile Hside.
  assert (stored_name (x +:+ ".json") = x +:+ ".json") as Hname.
  { unfold stored_name. by rewrite endswith_app. }
  assert ((save_dataset (x +:+ ".json") data dir).2 !! location
          = Some (to_json pd data)) as Hsaved.
  { rewrite (save_dataset_file _ data dir location) by (by rewrite Hname).
    simpl. rewrite Hname, endswith_app.
    rewrite upload_lookup by done. by rewrite lookup_insert_eq. }
  unfold load_dataset. rewrite find_dataset_file_order.
  rewrite (Path_exists_file _ _ location) by done.
  rewrite bool_decide_eq_true_2 by (by rewrite Hsaved).
  unfold read_file. rewrite Hfile, Hsaved.
  destruct (Path_name_json x) as [c ->]. rewrite Path_suffix_json.
  destruct c as [|a c]; [done|].
  replace (String.eqb (String a c +:+ ".json") ".json") with false; [done|].
  symmetry. apply String.eqb_neq. intros E.
  apply (f_equal String.length) in E. rewrite string_length_app in E.
  simpl in E. lia.
Qed.



(** X15.  Save, then delete under the stored name, where the path leads to
    the place of a file and the sidecar to that of another: a directory that
    had neither the file nor its sidecar is exactly as before. *)
Theorem save_then_delete_restores name data dir location side :
  dataset_target (stored_name name) = File location →
  sidecar_target (stored_name name) = File side →
  side ≠ location →
  dir !! location = None →
  dir !! side = None →
  delete_dataset (stored_name name) (save_dataset name data dir).2
  = (inr true, dir).
Proof.
  intros Ht Hs Hne Hfile Hside.
  rewrite (save_dataset_file name data dir location Ht). simpl.
  set (content := if endswith name ".json" then _ else _).
  set (dir1 := _upload_to_s3_via_dvc _ _).
  assert (sidecar_target (stored_name name) ≠ File location) as Hapart
    by (rewrite Hs; congruence).
  assert (dir1 !! location = Some content) as Hsaved.
  { unfold dir1. rewrite upload_lookup by done. by rewrite lookup_insert_eq. }
  assert (∀ path, path ≠ location → path ≠ side →
                  dir1 !! path = dir !! path) as Hrest.
  { intros path Hl Hd. unfold dir1.
    rewrite upload_lookup by (rewrite Hs; congruence).
    by rewrite lookup_insert_ne. }
  unfold delete_dataset. rewrite find_dataset_file_order.
  rewrite (Path_exists_file _ _ location) by done.
  rewrite bool_decide_eq_true_2 by (by rewrite Hsaved).
  rewrite Ht, Hs. simpl.
  assert (delete side (delete location dir1) = dir) as Hboth.
  { apply map_eq. intros path.
    destruct (decide (path = side)) as [->|Hd].
    { by rewrite lookup_delete_eq. }
    rewrite lookup_delete_ne by done.
    destruct (decide (path = location)) as [->|Hl].
    { by rewrite lookup_delete_eq. }
    rewrite lookup_delete_ne by done. by apply Hrest. }
  case_bool_decide as Hex; [by rewrite Hboth|].
  f_equal. rewrite <- Hboth. symmetry. apply delete_id.
  by apply eq_None_not_Some.
Qed.


Lemma glob_elem dir name content :
  (name, content) ∈ glob dir
  ↔ is_plain name = true ∧ dir !! name = Some content.
Proof.
  unfold glob. rewrite list_elem_of_filter, elem_of_map_to_list. done.
Qed.

Lemma listed_names_sublist dir (l : list (string * Content pd)) :
  flat fs →
  (∀ name content,
     (name, content) ∈ l →
     is_plain name = true ∧ dir !! name = Some content) →
  info_name <$>
    omap (λ entry : string * Content pd,
            if is_data_file entry.1 then
              match get_dataset_info entry.1 dir with
              | inr info => Some info
              | inl _ => None
              end
            else None) l
  `sublist_of` l.*1.
Proof.
  intros Hflat.
  induction l as [|[name content] l IH]; intros Hl; simpl; [done|].
  assert (∀ n c, (n, c) ∈ l → is_plain n = true ∧ dir !! n = Some c) as Hl'
    by (intros n c Hin; apply Hl; by right).
  destruct (is_data_file name).
  - destruct (Hl name content) as [Hplain Hc]; [by left|].
    rewrite (get_dataset_info_exact name dir name content)
      by (done || by apply Hflat).
    simpl. rewrite Path_name_plain by done. apply sublist_skip. by apply IH.
  - apply sublist_cons. by apply IH.
Qed.

(** X17.  In a flat file system [list_datasets] lists the data files: one
    entry for every file of the directory whose suffix is [.csv] or [.json],
    with the info of that file, also when the file cannot be parsed (its row
    count and columns are then absent); sidecar files are never listed, and
    no name is listed twice. *)
Theorem list_datasets_shows_data_files dir :
  flat fs →
  (∀ info,
     info ∈ list_datasets dir
     ↔ ∃ name content,
         is_plain name = true
         ∧ dir !! name = Some content
         ∧ is_data_file name = true
         ∧ info = info_of name content dir)
  ∧ (∀ info, info ∈ list_datasets dir → is_data_file (info_name info) = true)
  ∧ (∀ x, x +:+ ".dvc" ∉ info_name <$> list_datasets dir)
  ∧ NoDup (info_name <$> list_datasets dir).
Proof.
  intros Hflat.
  assert (∀ info,
            info ∈ list_datasets dir
            ↔ ∃ name content,
                is_plain name = true
                ∧ dir !! name = Some content
                ∧ is_data_file name = true
                ∧ info = info_of name content dir) as Hin.
  { intros info. unfold list_datasets. rewrite list_elem_of_omap. split.
    - intros ([name content] & Hentry & Hinfo).
      apply glob_elem in Hentry as [Hplain Hc]. simpl in Hinfo.
      exists name, content. split; [done|]. split; [done|].
      destruct (is_data_file name); [|done].
      rewrite (get_dataset_info_exact name dir name content) in Hinfo
        by (done || by apply Hflat).
      split; [done | congruence].
    - intros (name & content & Hplain & Hc & Hdata & ->).
      exists (name, content). split; [by apply glob_elem|]. simpl.
      rewrite Hdata, (get_dataset_info_exact name dir name content);
        [done | by apply Hflat | done]. }
  assert (∀ info, info ∈ list_datasets dir →
                  is_data_file (info_name info) = true) as Hdata.
  { intros info Hinfo.
    apply Hin in Hinfo as (name & content & Hplain & _ & Hdata & ->).
    simpl. by rewrite Path_name_plain. }
  split; [exact Hin|]. split; [exact Hdata|]. split.
  - intros x Hx. apply list_elem_of_fmap in Hx as (info & Hname & Hinfo).
    apply Hdata in Hinfo. rewrite <- Hname in Hinfo.
    by rewrite sidecar_is_no_data_file in Hinfo.
  - eapply sublist_NoDup.
    + eapply sublist_NoDup; [apply (NoDup_fst_map_to_list dir)|].
      apply fmap_sublist. unfold glob.
      exact (sublist_filter (λ entry : string * Content pd,
                               is_plain entry.1 = true) _).
    + apply listed_names_sublist; [done|]. intros name content.
      apply glob_elem.
Qed.

Lemma sync_fold_invariant dir0 (l : list (string * Content pd)) dir path :
  flat fs →
  (∀ name content, (name, content) ∈ l → is_plain name = true) →
  (∀ f, is_plain f = true → is_data_file f = true → path ≠ f +:+ ".dvc") →
  dir !! path = dir0 !! path →
  foldl (λ d (entry : string * Content pd),
           if is_data_file entry.1 then _upload_to_s3_via_dvc entry.1 d
           else d) dir l !! path = dir0 !! path.
Proof.
  intros Hflat Hl Hpath. revert dir.
  induction l as [|[name content] l IH]; intros dir Hdir; simpl; [done|].
  apply IH; [intros n c Hin; eapply Hl; by right|].
  destruct (is_data_file name) eqn:Hdata; [|done].
  assert (is_plain name = true) as Hplain by (eapply Hl; by left).
  rewrite upload_lookup; [done|].
  destruct (Hflat name Hplain) as [_ ->]. intros [= E].
  by eapply Hpath.
Qed.

(** X18.  In a flat file system [sync_existing_to_s3] leaves every data file
    as it is: it changes nothing but sidecars of data files of the
    directory, and without DVC it does nothing. *)
Theorem sync_keeps_the_data dir :
  flat fs →
  (∀ path, is_data_file path = true →
           sync_existing_to_s3 dir !! path = dir !! path)
  ∧ (∀ path,
       (∀ f, is_plain f = true → is_data_file f = true →
             path ≠ f +:+ ".dvc") →
       sync_existing_to_s3 dir !! path = dir !! path)
  ∧ (dvc_version_ok pd = false → sync_existing_to_s3 dir = dir).
Proof.
  intros Hflat.
  assert (∀ path,
            (∀ f, is_plain f = true → is_data_file f = true →
                  path ≠ f +:+ ".dvc") →
            sync_existing_to_s3 dir !! path = dir !! path) as Honly.
  { intros path Hpath. unfold sync_existing_to_s3.
    destruct (dvc_version_ok pd); simpl; [|done].
    apply sync_fold_invariant; [done| |done|done].
    intros name content Hin. by apply glob_elem in Hin as [? _]. }
  split; [|split; [exact Honly|]].
  - intros path Hdata. apply Honly. intros f _ _ ->.
    by rewrite sidecar_is_no_data_file in Hdata.
  - intros Hoff. unfold sync_existing_to_s3. by rewrite Hoff.
Qed.

End MoreDatasetProofs.

(** * The transports *)

Section TransportProofs.
Context {pd : Pandas} {sk : Sklearn} {cl : ClearML} {fs : FileSystem}.
Context (tb : Tabular pd sk) (library : exn_class).
Implicit Types w : world sk cl.

Lemma train_model_unknown settings model_type model_name
    (X : DataFrame sk) (y : Series sk) hp w :
  MODEL_REGISTRY !! model_type = None →
  train_model settings model_type model_name X y hp w
  = (inl (ValueError_unknown_type model_type), w).
Proof. intros Hreg. unfold train_model. by rewrite Hreg. Qed.



(** Hyperparameters that are a list of pairs never get a forest trained. *)
Lemma forest_rejects_pairs_raises settings model_type model_name
    (X : DataFrame sk) (y : Series sk) d w :
  ∃ e w', forest_rejects_pairs settings model_type model_name X y d w
          = (inl e, w').
Proof.
  unfold forest_rejects_pairs.
  repeat (rewrite bind_unfold;
          match goal with
          | |- context [match ?m w with _ => _ end] =>
              destruct (m w) as [[?|?] ?]; [by eexists _, _|]
          | |- context [match ?m ?w1 with _ => _ end] =>
              destruct (m w1) as [[?|?] ?]; [by eexists _, _|]
          end).
  by eexists _, _.
Qed.

(** Training that succeeds on the hyperparameters of an RPC request is
    training on a dictionary, or on none. *)
Lemma train_model_json_success settings model_type model_name
    (X : DataFrame sk) (y : Series sk) j w r w' :
  train_model_json settings model_type model_name X y j w = (inr r, w') →
  ∃ hp, train_model settings model_type model_name X y hp w = (inr r, w').
Proof.
  destruct j as [d| | |d|value_error]; simpl.
  - intros E. by exists (Some d).
  - intros E. by exists None.
  - intros E. by exists (Some ∅).
  - destruct (forest_rejects_pairs_raises settings model_type model_name
                X y d w) as (e & w1 & E1).
    destruct (MODEL_REGISTRY !! model_type) as [[]|] eqn:Hreg; intros E;
      first [congruence | by exists (Some d)].
  - destruct (MODEL_REGISTRY !! model_type) as [c|]; [|done].
    rewrite bind_unfold.
    by destruct (open_run _ _ _ _ w) as [[?|?] ?].
Qed.

Lemma train_model_json_unknown settings model_type model_name
    (X : DataFrame sk) (y : Series sk) j w :
  MODEL_REGISTRY !! model_type = None →
  train_model_json settings model_type model_name X y j w
  = (inl (ValueError_unknown_type model_type), w).
Proof.
  intros Hreg.
  destruct j as [d| | |d|value_error]; simpl; rewrite ?Hreg;
    first [by apply train_model_unknown | done].
Qed.

(** X19.  A target column that the dataset does not have. The HTTP routes for
    training and retraining raise their 400 inside the [try] whose last clause
    catches every [Exception], so that the answer is 500; the RPC handlers
    answer INVALID_ARGUMENT. Nothing is trained and the state is untouched. *)
Theorem missing_target_column settings dir w dataset_name target_column
    dataset :
  load_dataset dataset_name dir = inr dataset →
  has_column tb dataset target_column = false →
  (∀ request model_name,
     rq_dataset_name request = dataset_name →
     rq_target_column request = target_column →
     http_train tb library settings request dir w = (HTTPException 500, w)
     ∧ http_retrain tb library settings model_name request dir w
       = (HTTPException 500, w))
  ∧ (∀ request,
       g_dataset_name request = dataset_name →
       g_target_column request = target_column →
       grpc_train tb library settings request dir w
       = ((INVALID_ARGUMENT, None), w)
       ∧ grpc_retrain tb library settings request dir w
         = ((INVALID_ARGUMENT, None), w)).
Proof.
  intros Hload Hcol. split.
  - intros request model_name Hd Ht.
    unfold http_train, http_train_body, http_retrain, http_retrain_body.
    by rewrite Hd, Ht, Hload, Hcol.
  - intros request Hd Ht. unfold grpc_train, grpc_retrain.
    by rewrite Hd, Ht, Hload, Hcol.
Qed.


(** X21.  A model type that is not in the registry, on a dataset that has the
    target column: the HTTP route answers 400, the RPC handler INTERNAL,
    whatever the hyperparameters of the request are, parsed or not, and the
    state is untouched. *)
Theorem unknown_model_type settings dir w dataset_name target_column dataset
    model_type :
  load_dataset dataset_name dir = inr dataset →
  has_column tb dataset target_column = true →
  MODEL_REGISTRY !! model_type = None →
  (∀ request,
     rq_dataset_name request = dataset_name →
     rq_target_column request = target_column →
     rq_model_type request = model_type →
     http_train tb library settings request dir w = (HTTPException 400, w))
  ∧ (∀ request,
       g_dataset_name request = dataset_name →
       g_target_column request = target_column →
       g_model_type request = model_type →
       grpc_train tb library settings request dir w
       = ((INTERNAL, None), w)).
Proof.
  intros Hload Hcol Hreg. split.
  - intros request Hd Ht Hm. unfold http_train, http_train_body.
    rewrite Hd, Ht, Hm, Hload, Hcol. simpl.
    by rewrite train_model_unknown.
  - intros request Hd Ht Hm. unfold grpc_train.
    rewrite Hd, Ht, Hm, Hload, Hcol. simpl.
    destruct (grpc_hyperparameters tb _) as [j|]; [|done].
    by rewrite train_model_json_unknown.
Qed.

(** X22.  The answer of the HTTP retrain route names the model type of the
    request, which [retrain_model] never reads: the model was retrained with
    the type of its record, and the record still has that type. *)
Theorem http_retrain_echoes_request settings model_name request dir w
    code response w' :
  http_retrain tb library settings model_name request dir w
  = (Respond code response, w') →
  code = 200%nat
  ∧ rs_model_name response = model_name
  ∧ rs_model_type response = rq_model_type request
  ∧ ∃ r r',
      metadata w !! model_name = Some r
      ∧ metadata w' !! model_name = Some r'
      ∧ rec_type r' = rec_type r
      ∧ rec_metrics r' = rs_metrics response
      ∧ rec_clearml_task_id r' = rs_clearml_task_id response
      ∧ is_Some (MODEL_REGISTRY !! rec_type r).
Proof.
  unfold http_retrain, http_retrain_body.
  destruct (load_dataset _ dir) as [e|dataset]; [done|].
  destruct (has_column tb dataset _); simpl; [|done].
  rewrite retrain_model_run.
  destruct (metadata w !! model_name) as [r|] eqn:Hr; [|done].
  destruct (train_model _ _ _ _ _ _ w) as [[e|[[m metrics] task_id]] w1] eqn:E;
    [done|].
  intros [= <- <- <-]. simpl.
  apply train_model_success in E
    as (c & created_at & Hreg & _ & _ & _ & Hmeta & _).
  repeat split. exists r, (new_record (rec_type r) created_at metrics
    (Some match rq_hyperparameters request with
          | None => rec_hyperparameters r
          | Some h => h
          end) task_id).
  rewrite Hmeta, lookup_insert_eq. repeat split. by rewrite Hreg.
Qed.

(** X23.  The answer of the RPC retrain handler names the type under which the
    model is recorded, before and after the call, whatever JSON value the
    request carries for the hyperparameters. *)
Theorem grpc_retrain_reports_record settings request dir w code response w' :
  grpc_retrain tb library settings request dir w
  = ((code, Some response), w') →
  code = OK
  ∧ gs_model_name response = g_model_name request
  ∧ ∃ r r',
      metadata w !! g_model_name request = Some r
      ∧ metadata w' !! g_model_name request = Some r'
      ∧ gs_model_type response = rec_type r
      ∧ rec_type r' = rec_type r
      ∧ rec_metrics r' = gs_metrics response.
Proof.
  unfold grpc_retrain.
  destruct (load_dataset _ dir) as [e|dataset]; [done|].
  destruct (has_column tb dataset _); simpl; [|done].
  destruct (grpc_hyperparameters tb _) as [j|]; [|done].
  unfold retrain_model_json. rewrite bind_unfold. simpl.
  destruct (metadata w !! g_model_name request) as [r|] eqn:Hr; [|done].
  destruct (train_model_json _ _ _ _ _ _ w)
    as [[e|[[m metrics] task_id]] w1] eqn:E; [done|].
  intros [= <- <- <-].
  apply train_model_json_success in E as [hp E].
  apply train_model_success in E
    as (c & created_at & Hreg & _ & _ & _ & Hmeta & _).
  repeat split. eexists r, _. split; [done|].
  rewrite Hmeta, lookup_insert_eq. by repeat split.
Qed.

(** X24.  Every answer of the HTTP train route: 201 with a body that reports
    the stored record, after which the model loads; or an error of status 400,
    404 or 500, with artifacts, records and metadata file as they were. *)
Theorem http_train_answers settings request dir w :
  match http_train tb library settings request dir w with
  | (Respond code response, w') =>
      code = 201%nat
      ∧ rs_model_name response = rq_model_name request
      ∧ rs_model_type response = rq_model_type request
      ∧ (∃ m, load_model (rq_model_name request) w' = (inr m, w')
              ∧ is_trained m = true)
      ∧ ∃ r, metadata w' !! rq_model_name request = Some r
             ∧ rec_type r = rs_model_type response
             ∧ rec_metrics r = rs_metrics response
             ∧ rec_hyperparameters r = or_empty (rq_hyperparameters request)
             ∧ rec_clearml_task_id r = rs_clearml_task_id response
  | (HTTPException code, w') =>
      (code = 400 ∨ code = 404 ∨ code = 500)%nat ∧ same_stores w w'
  end.
Proof.
  unfold http_train, http_train_body.
  destruct (load_dataset _ dir) as [e|dataset].
  { split; [|apply same_stores_refl]. simpl.
    destruct (class_of library e); auto. }
  destruct (has_column tb dataset _); simpl.
  2:{ split; [auto | apply same_stores_refl]. }
  destruct (train_model _ _ _ _ _ _ w) as [[e|[[m metrics] task_id]] w1] eqn:E.
  { split; [|by eapply train_model_failure]. simpl.
    destruct (class_of library e); auto. }
  simpl. pose proof E as E'.
  apply train_model_success in E
    as (c & created_at & Hreg & Ho & _ & Hf & Hmeta & _).
  repeat split.
  - exists m. rewrite load_model_run, Hf, lookup_insert_eq. split; [done|].
    unfold train_outcome, fit_outcome in Ho.
    destruct (sk_new sk c _); [|done].
    destruct (sk_split sk _ _); [|done].
    destruct (guard_raises _ _ _); [done|]. simpl in Ho.
    destruct (sk_fit sk _ _); [|done].
    destruct (sk_eval sk _ _); [|done].
    by injection Ho as <- _.
  - eexists. rewrite Hmeta, lookup_insert_eq. by repeat split.
Qed.



End TransportProofs.

(** * Examples for the further properties *)

(** The forest trained under ["m"] loads, and predicts as the stand-in for
    scikit-learn does. *)
Lemma train_then_load_example :
  is_ok (load_model (sk := toy_sklearn) "m" trained_world).1 = true
  ∧ (predict (sk := toy_sklearn) "m" [4; 5] trained_world).1 = inr [4; 5].
Proof.
  destruct trained_world_run as (m & metrics & task_id & E).
  destruct (train_then_load _ _ _ _ _ _ _ _ _ _ _ E)
    as (Hload & _ & c & est0 & sp & est & _ & _ & _ & _ & _ & Hpredict).
  split.
  - by rewrite Hload.
  - by rewrite Hpredict.
Defined.

(** Training a second model leaves the first one alone. *)
Lemma other_models_untouched_example :
  files (serve (sk := toy_sklearn) tracking_on
           (Train (sk := toy_sklearn) "LogisticRegression" "b" [1; 2; 3]
              [0; 1; 0] None)
           trained_world) !! model_path "m"
  = files trained_world !! model_path "m"
  ∧ metadata (serve (sk := toy_sklearn) tracking_on
                (Train (sk := toy_sklearn) "LogisticRegression" "b" [1; 2; 3]
              [0; 1; 0] None)
                trained_world) !! "m"
    = metadata trained_world !! "m".
Proof.
  destruct (other_models_untouched (sk := toy_sklearn) tracking_on
              (Train (sk := toy_sklearn) "LogisticRegression" "b" [1; 2; 3]
                 [0; 1; 0] None)
              trained_world "m") as [Hrecord Hartifact].
  split.
  - apply Hartifact. vm_compute. discriminate.
  - apply Hrecord. discriminate.
Defined.

(** After deleting the forest, loading it raises. *)
Lemma deleted_model_is_gone_example :
  (load_model (sk := toy_sklearn) "m"
     (delete_model (sk := toy_sklearn) "m" trained_world).2).1
  = inl (FileNotFoundError "m").
Proof.
  assert ((delete_model (sk := toy_sklearn) "m" trained_world).1 = inr true)
    as Hok by (vm_compute; reflexivity).
  destruct (delete_model (sk := toy_sklearn) "m" trained_world)
    as [r w'] eqn:E.
  simpl in Hok. subst r.
  exact (proj1 (deleted_model_is_gone tracking_on _ _ _ E)).
Defined.

(** The forest is the one model listed. *)
Lemma trained_model_is_listed_example :
  (∃ created metrics,
     ("m", ("RandomForest", created, metrics)) ∈ list_models trained_world)
  ∧ length (list_models trained_world) = 1%nat.
Proof.
  destruct trained_world_run as (m & metrics & task_id & E).
  destruct (trained_model_is_listed _ _ _ _ _ _ _ _ _ _ _ E)
    as ([created Hin] & Hlen & _).
  split.
  - by exists created, metrics.
  - exact Hlen.
Defined.

(** Both types of the registry are on offer. *)
Lemma model_types_example :
  ∃ types,
    get_available_model_types (sk := toy_sklearn) empty_world
    = (inr types, empty_world)
    ∧ mt_name <$> types = ["LogisticRegression"; "RandomForest"].
Proof.
  destruct (model_types_are_the_registry (sk := toy_sklearn) empty_world)
    as (types & E & Hnames & _).
  - intros c. by eexists.
  - by exists types.
Defined.

(** A forest of 25 trees reports progress every second tree: 13 times. *)
Lemma forest_progress_example :
  (10 ≤ length (py_range 0 25 (Z.max 1 (25 / 10))) ≤ 19)%nat.
Proof.
  pose proof (forest_progress_is_throttled 25 ltac:(lia)) as H.
  cbv zeta in H. exact (proj1 H).
Defined.

Lemma split_slash_length (s c : string) :
  c ∈ split_slash s → (String.length c ≤ String.length s)%nat.
Proof.
  revert c. induction s as [|a s IH]; intros c; simpl.
  - intros ->%list_elem_of_singleton. done.
  - destruct (Ascii.eqb a _).
    + intros [->|Hin]%elem_of_cons; simpl; [lia|]. apply IH in Hin. lia.
    + destruct (split_slash s) as [|x xs].
      * intros ->%list_elem_of_singleton. simpl. lia.
      * intros [->|Hin]%elem_of_cons; simpl.
        -- assert (String.length x ≤ String.length s)%nat
             by (apply IH; by left). lia.
        -- assert (String.length c ≤ String.length s)%nat
             by (apply IH; by right). lia.
Qed.

Lemma plain_is_relative (name : string) :
  is_plain name = true → is_absolute name = false.
Proof.
  intros [Hparts _]%is_plain_parts.
  destruct name as [|a s]; [done|]. simpl.
  destruct (Ascii.eqb a _) eqn:Ha; [|done]. exfalso.
  assert (String a s ∈ Path_parts (String a s)) as Hin
    by (rewrite Hparts; by left).
  unfold Path_parts in Hin. simpl in Hin. rewrite Ha in Hin.
  apply list_elem_of_filter in Hin as [[Hne _] Hin].
  apply elem_of_cons in Hin as [E|Hin]; [done|].
  apply split_slash_length in Hin. simpl in Hin. lia.
Qed.

(** The stand-in for the file system is flat. *)
Lemma flat_posix : flat posix.
Proof.
  intros name H. pose proof (plain_is_relative name H) as Hrel.
  apply is_plain_parts in H as [Hparts Hne].
  cbn [dataset_target sidecar_target posix]. unfold Path_str.
  rewrite Hparts, Hrel. cbn [last Path_join].
  rewrite (proj2 (String.eqb_neq name "..")) by done.
  by change ("" +:+ name) with name.
Qed.

(** A frame saved under [iris.json] is read back as JSON. *)
Lemma json_round_trip_example :
  load_dataset (pd := toy_pandas) ("iris" +:+ ".json")
    (save_dataset (pd := toy_pandas) ("iris" +:+ ".json") 7%nat empty_dir).2
  = inr 7%nat.
Proof.
  apply (json_round_trip (pd := toy_pandas) "iris" 7%nat empty_dir
           "iris.json"); [reflexivity | discriminate].
Defined.

(** Saving [iris] into an empty directory and deleting [iris.csv] leaves
    the directory empty. *)
Lemma save_then_delete_example :
  delete_dataset (pd := toy_pandas) (stored_name "iris")
    (save_dataset (pd := toy_pandas) "iris" 7%nat empty_dir).2
  = (inr true, empty_dir).
Proof.
  apply (save_then_delete_restores (pd := toy_pandas) "iris" 7%nat empty_dir
           "iris.csv" "iris.csv.dvc");
    [reflexivity | reflexivity | discriminate | reflexivity | reflexivity].
Defined.

(** After the two uploads the listing shows no name twice. *)
Lemma list_datasets_example :
  NoDup (info_name <$> list_datasets (pd := toy_pandas) two_uploads).
Proof.
  exact (proj2 (proj2 (proj2
    (list_datasets_shows_data_files (pd := toy_pandas) two_uploads
       flat_posix)))).
Defined.

(** Synchronising after one upload leaves the data file as it is. *)
Lemma sync_keeps_the_data_example :
  sync_existing_to_s3 (pd := toy_pandas) one_upload !! "a.csv.csv"
  = one_upload !! "a.csv.csv".
Proof.
  exact (proj1 (sync_keeps_the_data (pd := toy_pandas) one_upload flat_posix)
           "a.csv.csv" eq_refl).
Defined.

(** A training request on the dataset [a.csv.csv] for the column ["z"],
    which the dataset does not have. *)
Lemma missing_target_column_example :
  http_train toy_tabular IsOther tracking_off
    {| rq_model_type := "RandomForest"; rq_model_name := "m";
       rq_dataset_name := "a.csv.csv"; rq_target_column := "z";
       rq_hyperparameters := None |} one_upload empty_world
  = (HTTPException 500, empty_world)
  ∧ grpc_train toy_tabular IsOther tracking_off
      {| g_model_type := "RandomForest"; g_model_name := "m";
         g_dataset_name := "a.csv.csv"; g_target_column := "z";
         g_hyperparameters_json := "" |} one_upload empty_world
    = ((INVALID_ARGUMENT, None), empty_world).
Proof.
  destruct (missing_target_column toy_tabular IsOther tracking_off one_upload
              empty_world "a.csv.csv" "z" 1%nat) as [Hhttp Hgrpc].
  - vm_compute; reflexivity.
  - reflexivity.
  - split.
    + exact (proj1 (Hhttp
        {| rq_model_type := "RandomForest"; rq_model_name := "m";
           rq_dataset_name := "a.csv.csv"; rq_target_column := "z";
           rq_hyperparameters := None |} "m" eq_refl eq_refl)).
    + exact (proj1 (Hgrpc
        {| g_model_type := "RandomForest"; g_model_name := "m";
           g_dataset_name := "a.csv.csv"; g_target_column := "z";
           g_hyperparameters_json := "" |} eq_refl eq_refl)).
Defined.


(** A training request for a support vector machine, with hyperparameters
    that are a list on the RPC side. *)
Lemma unknown_model_type_example :
  http_train toy_tabular IsOther tracking_off
    {| rq_model_type := "SVM"; rq_model_name := "m";
       rq_dataset_name := "a.csv.csv"; rq_target_column := "y";
       rq_hyperparameters := None |} one_upload empty_world
  = (HTTPException 400, empty_world)
  ∧ grpc_train toy_tabular IsOther tracking_off
      {| g_model_type := "SVM"; g_model_name := "m";
         g_dataset_name := "a.csv.csv"; g_target_column := "y";
         g_hyperparameters_json := "[1]" |} one_upload empty_world
    = ((INTERNAL, None), empty_world).
Proof.
  destruct (unknown_model_type toy_tabular IsOther tracking_off one_upload
              empty_world "a.csv.csv" "y" 1%nat "SVM") as [Hhttp Hgrpc].
  - vm_compute; reflexivity.
  - reflexivity.
  - reflexivity.
  - split.
    + exact (Hhttp
        {| rq_model_type := "SVM"; rq_model_name := "m";
           rq_dataset_name := "a.csv.csv"; rq_target_column := "y";
           rq_hyperparameters := None |} eq_refl eq_refl eq_refl).
    + exact (Hgrpc
        {| g_model_type := "SVM"; g_model_name := "m";
           g_dataset_name := "a.csv.csv"; g_target_column := "y";
           g_hyperparameters_json := "[1]" |} eq_refl eq_refl eq_refl).
Defined.

(** Retraining the forest ["m"] over HTTP with a request that names a
    logistic regression: the answer says logistic regression, the record
    says forest. *)
Lemma http_retrain_example :
  ∃ response w',
    http_retrain toy_tabular IsOther tracking_off "m"
      {| rq_model_type := "LogisticRegression"; rq_model_name := "m";
         rq_dataset_name := "a.csv.csv"; rq_target_column := "y";
         rq_hyperparameters := None |} one_upload trained_world
    = (Respond 200 response, w')
    ∧ rs_model_type response = "LogisticRegression"
    ∧ rec_type <$> metadata w' !! "m" = Some "RandomForest".
Proof.
  assert (rec_type <$> metadata trained_world !! "m" = Some "RandomForest")
    as Hforest by (vm_compute; reflexivity).
  assert (match
            (http_retrain toy_tabular IsOther tracking_off "m"
               {| rq_model_type := "LogisticRegression"; rq_model_name := "m";
                  rq_dataset_name := "a.csv.csv"; rq_target_column := "y";
                  rq_hyperparameters := None |} one_upload trained_world).1
          with Respond _ _ => true | HTTPException _ => false end = true)
    as Hok by (vm_compute; reflexivity).
  destruct (http_retrain toy_tabular IsOther tracking_off "m" _ one_upload
              trained_world) as [[code response|code] w'] eqn:E;
    [|discriminate Hok].
  destruct (http_retrain_echoes_request _ _ _ _ _ _ _ _ _ _ E)
    as (-> & _ & Htype & r & r' & Hr & Hr' & Hsame & _).
  exists response, w'. split; [reflexivity|]. split; [exact Htype|].
  rewrite Hr in Hforest. rewrite Hr'. simpl in *. by rewrite Hsame.
Defined.

(** The same over RPC, with the hyperparameters [[]]: the answer says
    forest. *)
Lemma grpc_retrain_example :
  ∃ response w',
    grpc_retrain toy_tabular IsOther tracking_off
      {| g_model_type := "LogisticRegression"; g_model_name := "m";
         g_dataset_name := "a.csv.csv"; g_target_column := "y";
         g_hyperparameters_json := "[]" |} one_upload trained_world
    = ((OK, Some response), w')
    ∧ gs_model_type response = "RandomForest".
Proof.
  assert (rec_type <$> metadata trained_world !! "m" = Some "RandomForest")
    as Hforest by (vm_compute; reflexivity).
  assert (match
            grpc_retrain toy_tabular IsOther tracking_off
              {| g_model_type := "LogisticRegression"; g_model_name := "m";
                 g_dataset_name := "a.csv.csv"; g_target_column := "y";
                 g_hyperparameters_json := "[]" |} one_upload trained_world
          with ((_, Some _), _) => true | _ => false end = true)
    as Hok by (vm_compute; reflexivity).
  destruct (grpc_retrain toy_tabular IsOther tracking_off _ one_upload
              trained_world) as [[code [response|]] w'] eqn:E;
    try discriminate Hok.
  destruct (grpc_retrain_reports_record _ _ _ _ _ _ _ _ _ E)
    as (-> & _ & r & r' & Hr & _ & Htype & _).
  exists response, w'. split; [reflexivity|].
  simpl in Hr. rewrite Hr in Hforest. simpl in Hforest.
  rewrite Htype. by injection Hforest.
Defined.
